(** * The Kubelet summary client (metrics/sources/summary/client.go)

    A shallow embedding of the client that fetches [/stats/summary/] from a
    Kubelet, and the properties of its request construction, its status
    classification, its error values and its handling of the response body.

    The Go standard library and the statistics schema are not part of the
    client: they enter through the [Runtime] class below, and every theorem
    holds for every instance of it.  Module [Double] gives one instance, a
    scripted transport with a small JSON decoder, on which the theorems are
    run on concrete inputs.

    The client is stateful code: it reads the fields of a [kubeletClient]
    object, sends a request through a transport, owns the body of the
    response until it closes it, and writes to the log.  A call is a function
    from the state of the process to an outcome and a new state; an outcome
    is a returned value or a panic.  A response body is a finite sequence of
    reads, so that [ioutil.ReadAll] returns. *)

From Stdlib Require Import ZArith NArith Ascii.
From Stdlib Require String DecimalString DecimalPos DecimalN.
From stdpp Require Import base list strings.

Set Warnings "-register-all".
Local Open Scope Z_scope.

(** ** Go strings

    A Go [string] is a sequence of bytes; so is a Rocq [string]. *)

(** [strings.HasPrefix(s, p)] *)
Fixpoint has_prefix (s p : string) {struct p} : bool :=
  match p, s with
  | EmptyString, _ => true
  | String _ _, EmptyString => false
  | String a p', String b s' => if Ascii.eqb a b then has_prefix s' p' else false
  end.

(** [strings.Contains(s, sub)] *)
Fixpoint contains (s sub : string) : bool :=
  if has_prefix s sub then true
  else match s with
       | EmptyString => false
       | String _ s' => contains s' sub
       end.

(** [sub] occurs in [s]. *)
Definition occurs_in (sub s : string) : Prop :=
  exists a b : string, s = a +:+ sub +:+ b.

(** The [%d] verb of [fmt] on an unsigned integer: plain decimal digits. *)
Definition verb_d (n : N) : string :=
  DecimalString.NilZero.string_of_uint (N.to_uint n).

(** ** Errors

    A Go [error] is an interface value: [nil], or a value of some dynamic
    type.  Three dynamic types matter to the client: its own [*ErrNotFound],
    the [*errors.errorString] that [fmt.Errorf] builds, and the errors of
    other packages, which may wrap a cause. *)

(** [type ErrNotFound struct { endpoint string }] *)
Record ErrNotFound := { endpoint : string }.

Inductive error_value :=
  | ErrNotFound_ptr (p : option ErrNotFound)
      (* a [*ErrNotFound]; [None] is the nil pointer of that type *)
  | errorString (s : string)
      (* the result of [fmt.Errorf] and [errors.New] *)
  | foreign (type_name : string) (msg : string) (cause : option error_value).
      (* an error type of another package, possibly wrapping a cause *)

Definition error := option error_value.

(** [func IsNotFoundError(err error) bool]: a type assertion on the dynamic
    type of [err]. *)
Definition IsNotFoundError (err : error) : bool :=
  match err with
  | Some (ErrNotFound_ptr _) => true
  | _ => false
  end.

(** ** URLs, requests and responses *)

(** [url.URL], with [User *Userinfo] as an optional name and password. *)
Record URL := {
  Scheme : string;
  Opaque : string;
  User : option (string * option string);
  Host : string;
  Path : string;
  RawPath : string;
  ForceQuery : bool;
  RawQuery : string;
  Fragment : string
}.

(** [http.Request], as far as the client touches it. *)
Record Request := {
  Method : string;
  ReqURL : option URL   (* [URL *url.URL] *)
}.

(** One step of reading a response body: some bytes, or a read error.  A body
    whose steps are used up is at EOF. *)
Inductive read_event :=
  | Chunk (data : string)
  | Fail (e : error_value).

(** What a round trip hands back: the status line, the status code and the
    body as it will be read. *)
Record RawResponse := {
  raw_Status : string;
  raw_StatusCode : Z;
  raw_Body : list read_event
}.

(** A response body held by the process: what is left to read, and whether
    it was closed. *)
Record Body := {
  stream : list read_event;
  closed : bool
}.

(** [http.Response]: [Body] is a reference into the open connections. *)
Record Response := {
  Status : string;
  StatusCode : Z;
  Body_ref : nat
}.

(** [http.Client]; only [Transport] is ever set. *)
Record http_Client (RT : Type) := { Transport : option RT }.
Arguments Transport {RT} _.

(** [http.DefaultClient] is [&Client{}]. *)
Definition http_DefaultClient {RT : Type} : http_Client RT :=
  {| Transport := None |}.

Definition http_StatusOK : Z := 200.
Definition http_StatusNotFound : Z := 404.

(** A call returns a value or panics; either way it leaves the process in
    some state. *)
Inductive Res (A : Type) :=
  | Val (a : A)
  | Panic (msg : string).
Arguments Val {A} _.
Arguments Panic {A} _.

(** ** The libraries the client calls *)

Class Runtime := {
  (** [strconv.Quote]: the [%q] verb of [fmt] on a string *)
  strconv_Quote : string -> string;
  (** [URL.String] of [net/url] on a non-nil URL *)
  URL_String : URL -> string;
  (** [http.NewRequest(method, url, nil)] *)
  http_NewRequest : string -> string -> Request + error_value;
  (** the injected [http.RoundTripper], the state of what is behind it, and
      what [Client.Do] of [net/http] obtains through it *)
  RoundTripper : Type;
  Network : Type;
  http_Client_Do :
    http_Client RoundTripper -> Request -> Network ->
    (RawResponse + error_value) * Network;
  (** [stats.Summary], its zero value, and [json.Unmarshal] into a pointer to
      it: the value the pointer refers to afterwards, and the error *)
  Summary : Type;
  Summary_zero : Summary;
  json_Unmarshal : string -> Summary -> Summary * error
}.

Section Client.

Context {rt : Runtime}.

(** [func (err *ErrNotFound) Error() string] *)
Definition ErrNotFound_Error (err : ErrNotFound) : string :=
  strconv_Quote (endpoint err) +:+ " not found".

(** The [%v] verb of [fmt] on a non-nil error: the text of its [Error]
    method; [fmt] prints a nil pointer receiver as [<nil>]. *)
Definition verb_v (e : error_value) : string :=
  match e with
  | ErrNotFound_ptr (Some x) => ErrNotFound_Error x
  | ErrNotFound_ptr None => "<nil>"
  | errorString s => s
  | foreign _ msg _ => msg
  end.

(** [type kubeletClient struct] *)
Record kubeletClient := {
  portIsInsecure : bool;
  port : N;                                   (* [uint] *)
  client : option (http_Client RoundTripper)  (* [*http.Client] *)
}.

(** ** The state of the process

    The network behind the transport, the [kubeletClient] objects on the
    heap, the response bodies opened so far, and the [glog] verbosity and
    output. *)
Record World := {
  network : Network;
  clients : list kubeletClient;
  conns : list Body;
  glog_v : Z;
  glog_out : list string
}.

Definition set_network (n : Network) (w : World) : World :=
  {| network := n; clients := clients w; conns := conns w;
     glog_v := glog_v w; glog_out := glog_out w |}.

Definition set_clients (cs : list kubeletClient) (w : World) : World :=
  {| network := network w; clients := cs; conns := conns w;
     glog_v := glog_v w; glog_out := glog_out w |}.

Definition set_conns (bs : list Body) (w : World) : World :=
  {| network := network w; clients := clients w; conns := bs;
     glog_v := glog_v w; glog_out := glog_out w |}.

Definition set_glog_out (ls : list string) (w : World) : World :=
  {| network := network w; clients := clients w; conns := conns w;
     glog_v := glog_v w; glog_out := ls |}.

Definition M (A : Type) : Type := World -> Res A * World.

Definition ret {A} (a : A) : M A := fun w => (Val a, w).

Definition bind {A B} (m : M A) (k : A -> M B) : M B :=
  fun w =>
    match m w with
    | (Val a, w') => k a w'
    | (Panic msg, w') => (Panic msg, w')
    end.

Definition panic {A} (msg : string) : M A := fun w => (Panic msg, w).

(** [defer f()]: [f] runs when the function body is left, by a return or by
    a panic. *)
Definition defer {A} (f : World -> World) (body : M A) : M A :=
  fun w => let '(r, w') := body w in (r, f w').

Notation "x <- m ;; k" := (bind m (fun x => k))
  (at level 100, m at next level, right associativity).

Definition nil_dereference : string :=
  "runtime error: invalid memory address or nil pointer dereference".

(** Reading the fields of [kc *kubeletClient]. *)
Definition deref (kc : nat) : M kubeletClient :=
  fun w =>
    match clients w !! kc with
    | Some cfg => (Val cfg, w)
    | None => (Panic nil_dereference, w)
    end.

(** [Client.Do] of [net/http]: the round trip, and on a response the body is now
    an open connection of the process. *)
Definition client_Do (c : http_Client RoundTripper) (req : Request)
  : M (Response + error_value) :=
  fun w =>
    let '(answer, n) := http_Client_Do c req (network w) in
    match answer with
    | inr e => (Val (inr e), set_network n w)
    | inl raw =>
        (Val (inl {| Status := raw_Status raw;
                     StatusCode := raw_StatusCode raw;
                     Body_ref := length (conns w) |}),
         set_conns (conns w ++ [{| stream := raw_Body raw; closed := false |}])
                   (set_network n w))
    end.

(** [ioutil.ReadAll] on a stream: the bytes up to EOF, or up to the first
    read error together with that error; and what is left unread. *)
Fixpoint read_all (evs : list read_event) (acc : string)
  : string * error * list read_event :=
  match evs with
  | [] => (acc, None, [])
  | Chunk data :: rest => read_all rest (acc +:+ data)
  | Fail e :: rest => (acc, Some e, rest)
  end.

Definition read_on_closed : error_value :=
  errorString "http: read on closed response body".

(** [ioutil.ReadAll(response.Body)] *)
Definition ioutil_ReadAll (ref : nat) : M (string * error) :=
  fun w =>
    match conns w !! ref with
    | None => (Panic nil_dereference, w)
    | Some b =>
        if closed b then (Val (EmptyString, Some read_on_closed), w)
        else
          let '(data, err, rest) := read_all (stream b) EmptyString in
          (Val (data, err),
           set_conns (<[ref := {| stream := rest; closed := false |}]> (conns w)) w)
    end.

(** [response.Body.Close()] *)
Definition Body_Close (ref : nat) (w : World) : World :=
  set_conns (alter (fun b => {| stream := stream b; closed := true |}) ref (conns w)) w.

(** [glog.V(level).Infof(...)], with the message already formatted. *)
Definition glog_V_Infof (level : Z) (msg : string) : M unit :=
  fun w =>
    if level <=? glog_v w
    then (Val tt, set_glog_out (glog_out w ++ [msg]) w)
    else (Val tt, w).

(** [req.URL.String()] on the pointer [req.URL]. *)
Definition URL_ptr_String (u : option URL) : M string :=
  match u with
  | Some u => ret (URL_String u)
  | None => panic nil_dereference
  end.

(** ** The client *)

(** [func (kc *kubeletClient) postRequestAndGetValue(client, req, value) error];
    [value] is what the pointer refers to, and comes back with the error. *)
Definition postRequestAndGetValue (kc : nat)
    (c : http_Client RoundTripper) (req : Request) (value : Summary)
  : M (Summary * error) :=
  r <- client_Do c req ;;
  match r with
  | inr err => ret (value, Some err)
  | inl response =>
      defer (Body_Close (Body_ref response))
        (rd <- ioutil_ReadAll (Body_ref response) ;;
         let '(body, err) := rd in
         match err with
         | Some e =>
             ret (value,
                  Some (errorString ("failed to read response body - " +:+ verb_v e)))
         | None =>
             if StatusCode response =? http_StatusNotFound then
               s <- URL_ptr_String (ReqURL req) ;;
               ret (value, Some (ErrNotFound_ptr (Some {| endpoint := s |})))
             else if negb (StatusCode response =? http_StatusOK) then
               ret (value,
                    Some (errorString
                            ("request failed - " +:+ strconv_Quote (Status response)
                             +:+ ", response: " +:+ strconv_Quote body)))
             else
               let kubeletAddr :=
                 match ReqURL req with
                 | Some u => Host u
                 | None => "[unknown]"
                 end in
               _ <- glog_V_Infof 10
                      ("Raw response from Kubelet at " +:+ kubeletAddr
                       +:+ ": " +:+ body) ;;
               let '(value', err) := json_Unmarshal body value in
               match err with
               | Some e =>
                   ret (value',
                        Some (errorString
                                ("failed to parse output. Response: "
                                 +:+ strconv_Quote body +:+ ". Error: " +:+ verb_v e)))
               | None => ret (value', None)
               end
         end)
  end.

(** The [url.URL] literal of [GetSummary], after the scheme is settled. *)
Definition GetSummary_url (cfg : kubeletClient) (host : string) : URL :=
  let url :=
    {| Scheme := "https";
       Opaque := EmptyString;
       User := None;
       Host := host +:+ ":" +:+ verb_d (port cfg);
       Path := "/stats/summary/";
       RawPath := EmptyString;
       ForceQuery := false;
       RawQuery := EmptyString;
       Fragment := EmptyString |} in
  if portIsInsecure cfg then
    {| Scheme := "http";
       Opaque := Opaque url; User := User url; Host := Host url;
       Path := Path url; RawPath := RawPath url;
       ForceQuery := ForceQuery url; RawQuery := RawQuery url;
       Fragment := Fragment url |}
  else url.

(** The client [GetSummary] sends with: [kc.client], or the default client
    when that is nil. *)
Definition GetSummary_client (cfg : kubeletClient) : http_Client RoundTripper :=
  match client cfg with
  | Some c => c
  | None => http_DefaultClient
  end.

(** [func (kc *kubeletClient) GetSummary(host string)], returning a pointer to a
    [stats.Summary] and an error;
    the first component is the pointer: [None] is [nil], [Some s] points to
    a summary holding [s]. *)
Definition GetSummary (kc : nat) (host : string) : M (option Summary * error) :=
  cfg <- deref kc ;;
  let url := GetSummary_url cfg host in
  match http_NewRequest "GET" (URL_String url) with
  | inr err => ret (None, Some err)
  | inl req =>
      let summary := Summary_zero in
      let c := GetSummary_client cfg in
      r <- postRequestAndGetValue kc c req summary ;;
      let '(summary', err) := r in
      ret (Some summary', err)
  end.

(** [func NewKubeletClient(transport, port, portIsInsecure) (KubeletInterface, error)] *)
Definition NewKubeletClient (transport : option RoundTripper) (p : N) (insecure : bool)
  : M (nat * error) :=
  fun w =>
    let c := {| Transport := transport |} in
    (Val (length (clients w), None),
     set_clients (clients w ++ [{| portIsInsecure := insecure; port := p;
                                   client := Some c |}]) w).

End Client.

(** ** A test double for the libraries

    A scripted transport, a decoder for a cut of the statistics schema, and
    the library functions on the inputs where their results are plain:
    ASCII text for [strconv.Quote], and URLs of the form
    [scheme://host/path] without bytes to escape for [net/url]. *)
Module Double.

Definition dquote : ascii := "034"%char.
Definition backslash : ascii := "092"%char.
Definition newline : ascii := "010"%char.

(** [s] between double quotes. *)
Definition quoted (s : string) : string :=
  String dquote (s +:+ String dquote EmptyString).

Definition hex_digit (n : N) : ascii :=
  match String.get (N.to_nat n) "0123456789abcdef" with
  | Some c => c
  | None => "0"%char
  end.

(** How [strconv.Quote] writes one byte of ASCII text.  A byte from 128 on
    is written the way Go writes a byte outside any valid UTF-8 sequence. *)
Definition quote_byte (c : ascii) : string :=
  let n := N_of_ascii c in
  if (n =? 34)%N || (n =? 92)%N then String backslash (String c EmptyString)
  else if (32 <=? n)%N && (n <=? 126)%N then String c EmptyString
  else if (n =? 7)%N then String backslash "a"
  else if (n =? 8)%N then String backslash "b"
  else if (n =? 12)%N then String backslash "f"
  else if (n =? 10)%N then String backslash "n"
  else if (n =? 13)%N then String backslash "r"
  else if (n =? 9)%N then String backslash "t"
  else if (n =? 11)%N then String backslash "v"
  else String backslash
         (String "x"
            (String (hex_digit (n / 16))
               (String (hex_digit (n mod 16)) EmptyString))).

Fixpoint quote_bytes (s : string) : string :=
  match s with
  | EmptyString => EmptyString
  | String c s' => quote_byte c +:+ quote_bytes s'
  end.

Definition Quote (s : string) : string := quoted (quote_bytes s).

(** [strings.Cut(s, sep)] *)
Fixpoint cut (s sep : string) : option (string * string) :=
  if has_prefix s sep
  then Some (EmptyString,
             String.substring (String.length sep) (String.length s) s)
  else match s with
       | EmptyString => None
       | String c s' =>
           match cut s' sep with
           | Some (before, after) => Some (String c before, after)
           | None => None
           end
       end.

(** [URL.String] when only [Scheme], [Host] and [Path] are set and need no
    escaping. *)
Definition url_String (u : URL) : string :=
  Scheme u +:+ "://" +:+ Host u +:+ Path u.

(** [http.NewRequest] on such a URL. *)
Definition NewRequest (method url : string) : Request + error_value :=
  match cut url "://" with
  | None =>
      inr (foreign "*url.Error"
             ("parse " +:+ Quote url +:+ ": missing protocol scheme") None)
  | Some (scheme, rest) =>
      let '(host, path) :=
        match cut rest "/" with
        | Some (host, path) => (host, String "/" path)
        | None => (rest, EmptyString)
        end in
      inl {| Method := method;
             ReqURL := Some {| Scheme := scheme; Opaque := EmptyString; User := None;
                               Host := host; Path := path; RawPath := EmptyString;
                               ForceQuery := false; RawQuery := EmptyString;
                               Fragment := EmptyString |} |}
  end.

(** The transport answers every request with the answer it was built with
    and counts the round trips; without a transport there is no network. *)
Definition Do (c : http_Client (RawResponse + error_value)) (req : Request) (trips : nat)
  : (RawResponse + error_value) * nat :=
  (match Transport c with
   | Some answer => answer
   | None => inr (foreign "*url.Error" "dial tcp: no network" None)
   end,
   S trips).

(** *** A cut of [stats.Summary] *)

Module stats.

Record PodReference := { Name : string; Namespace : string; UID : string }.
Record PodStats := { PodRef : PodReference }.
Record NodeStats := { NodeName : string }.
Record Summary := { Node : NodeStats; Pods : list PodStats }.

Definition PodReference_zero : PodReference :=
  {| Name := EmptyString; Namespace := EmptyString; UID := EmptyString |}.
Definition PodStats_zero : PodStats := {| PodRef := PodReference_zero |}.
Definition Summary_zero : Summary :=
  {| Node := {| NodeName := EmptyString |}; Pods := [] |}.

End stats.

(** *** JSON text *)

Inductive json :=
  | JNull
  | JBool (b : bool)
  | JNumber (literal : string)
  | JString (s : string)
  | JArray (elements : list json)
  | JObject (members : list (string * json)).

Definition is_space (c : ascii) : bool :=
  let n := N_of_ascii c in
  ((n =? 32) || (n =? 9) || (n =? 10) || (n =? 13))%N.

Fixpoint skip_space (s : string) : string :=
  match s with
  | String c s' => if is_space c then skip_space s' else s
  | EmptyString => s
  end.

Definition is_number_byte (c : ascii) : bool :=
  let n := N_of_ascii c in
  ((48 <=? n) && (n <=? 57) || (n =? 45) || (n =? 43) || (n =? 46)
   || (n =? 101) || (n =? 69))%N.

Fixpoint number_literal (s : string) : string * string :=
  match s with
  | String c s' =>
      if is_number_byte c
      then let '(lit, rest) := number_literal s' in (String c lit, rest)
      else (EmptyString, s)
  | EmptyString => (EmptyString, s)
  end.

(** The text of a string literal after its opening quote. *)
Fixpoint string_literal (s : string) : option (string * string) :=
  match s with
  | EmptyString => None
  | String c s' =>
      if Ascii.eqb c dquote then Some (EmptyString, s')
      else if Ascii.eqb c backslash then
        match s' with
        | String e s'' =>
            let keep (x : ascii) :=
              match string_literal s'' with
              | Some (lit, rest) => Some (String x lit, rest)
              | None => None
              end in
            if Ascii.eqb e dquote then keep dquote
            else if Ascii.eqb e backslash then keep backslash
            else if Ascii.eqb e "/" then keep "/"%char
            else if Ascii.eqb e "n" then keep newline
            else if Ascii.eqb e "t" then keep "009"%char
            else if Ascii.eqb e "r" then keep "013"%char
            else None
        | EmptyString => None
        end
      else if (N_of_ascii c <? 32)%N then None
      else
        match string_literal s' with
        | Some (lit, rest) => Some (String c lit, rest)
        | None => None
        end
  end.

Definition expect (word : string) (v : json) (s : string) : option (json * string) :=
  if has_prefix s word
  then Some (v, String.substring (String.length word) (String.length s) s)
  else None.

Fixpoint value (fuel : nat) (s : string) : option (json * string) :=
  match fuel with
  | O => None
  | S fuel =>
      match skip_space s with
      | EmptyString => None
      | String c s' as s0 =>
          if Ascii.eqb c "{" then
            match skip_space s' with
            | String "}" rest => Some (JObject [], rest)
            | _ => match members fuel s' with
                   | Some (ms, rest) => Some (JObject ms, rest)
                   | None => None
                   end
            end
          else if Ascii.eqb c "[" then
            match skip_space s' with
            | String "]" rest => Some (JArray [], rest)
            | _ => match elements fuel s' with
                   | Some (vs, rest) => Some (JArray vs, rest)
                   | None => None
                   end
            end
          else if Ascii.eqb c dquote then
            match string_literal s' with
            | Some (lit, rest) => Some (JString lit, rest)
            | None => None
            end
          else if Ascii.eqb c "t" then expect "true" (JBool true) s0
          else if Ascii.eqb c "f" then expect "false" (JBool false) s0
          else if Ascii.eqb c "n" then expect "null" JNull s0
          else if is_number_byte c then
            let '(lit, rest) := number_literal s0 in Some (JNumber lit, rest)
          else None
      end
  end
with elements (fuel : nat) (s : string) : option (list json * string) :=
  match fuel with
  | O => None
  | S fuel =>
      match value fuel s with
      | None => None
      | Some (v, rest) =>
          match skip_space rest with
          | String "]" rest' => Some ([v], rest')
          | String "," rest' =>
              match elements fuel rest' with
              | Some (vs, rest'') => Some (v :: vs, rest'')
              | None => None
              end
          | _ => None
          end
      end
  end
with members (fuel : nat) (s : string) : option (list (string * json) * string) :=
  match fuel with
  | O => None
  | S fuel =>
      match skip_space s with
      | String c s' =>
          if Ascii.eqb c dquote then
            match string_literal s' with
            | None => None
            | Some (key, rest) =>
                match skip_space rest with
                | String ":" rest' =>
                    match value fuel rest' with
                    | None => None
                    | Some (v, rest'') =>
                        match skip_space rest'' with
                        | String "}" r => Some ([(key, v)], r)
                        | String "," r =>
                            match members fuel r with
                            | Some (ms, r') => Some ((key, v) :: ms, r')
                            | None => None
                            end
                        | _ => None
                        end
                    end
                | _ => None
                end
            end
          else None
      | EmptyString => None
      end
  end.

(** A whole JSON text: one value, then only white space. *)
Definition parse (s : string) : option json :=
  match value (S (String.length s)) s with
  | Some (v, rest) =>
      match skip_space rest with
      | EmptyString => Some v
      | _ => None
      end
  | None => None
  end.

(** *** Decoding into the summary

    As [encoding/json] decodes into a struct: a JSON text that does not
    parse leaves the value as it was; [null] leaves a field as it was; keys
    are matched without regard to ASCII case and unknown keys are skipped; a
    value of the wrong kind is skipped, the first such mismatch is the error
    returned, and decoding goes on. *)

Definition lower (c : ascii) : ascii :=
  let n := N_of_ascii c in
  if ((65 <=? n) && (n <=? 90))%N then ascii_of_N (n + 32) else c.

Fixpoint fold_eqb (a b : string) : bool :=
  match a, b with
  | EmptyString, EmptyString => true
  | String x a', String y b' => Ascii.eqb (lower x) (lower y) && fold_eqb a' b'
  | _, _ => false
  end.

Definition kind_of (j : json) : string :=
  match j with
  | JNull => "null"
  | JBool _ => "bool"
  | JNumber _ => "number"
  | JString _ => "string"
  | JArray _ => "array"
  | JObject _ => "object"
  end.

Definition mismatch (j : json) (target : string) : error_value :=
  foreign "*json.UnmarshalTypeError"
    ("json: cannot unmarshal " +:+ kind_of j +:+ " into Go value of type " +:+ target)
    None.

Definition first_error (e1 e2 : error) : error :=
  match e1 with
  | Some _ => e1
  | None => e2
  end.

(** Decoding the members of an object into a struct, one field at a time. *)
Fixpoint decode_fields {T : Type} (field : string -> json -> T -> T * error)
    (ms : list (string * json)) (old : T) : T * error :=
  match ms with
  | [] => (old, None)
  | (key, v) :: ms' =>
      let '(t, e1) := field key v old in
      let '(t', e2) := decode_fields field ms' t in
      (t', first_error e1 e2)
  end.

Definition decode_struct {T : Type} (target : string)
    (field : string -> json -> T -> T * error) (j : json) (old : T) : T * error :=
  match j with
  | JObject ms => decode_fields field ms old
  | JNull => (old, None)
  | _ => (old, Some (mismatch j target))
  end.

Definition decode_string (j : json) (old : string) : string * error :=
  match j with
  | JString s => (s, None)
  | JNull => (old, None)
  | _ => (old, Some (mismatch j "string"))
  end.

Definition decode_PodReference
  : json -> stats.PodReference -> stats.PodReference * error :=
  decode_struct "v1alpha1.PodReference"
    (fun key v old =>
       if fold_eqb key "name" then
         let '(s, e) := decode_string v (stats.Name old) in
         ({| stats.Name := s; stats.Namespace := stats.Namespace old;
             stats.UID := stats.UID old |}, e)
       else if fold_eqb key "namespace" then
         let '(s, e) := decode_string v (stats.Namespace old) in
         ({| stats.Name := stats.Name old; stats.Namespace := s;
             stats.UID := stats.UID old |}, e)
       else if fold_eqb key "uid" then
         let '(s, e) := decode_string v (stats.UID old) in
         ({| stats.Name := stats.Name old; stats.Namespace := stats.Namespace old;
             stats.UID := s |}, e)
       else (old, None)).

Definition decode_PodStats : json -> stats.PodStats -> stats.PodStats * error :=
  decode_struct "v1alpha1.PodStats"
    (fun key v old =>
       if fold_eqb key "podRef" then
         let '(r, e) := decode_PodReference v (stats.PodRef old) in
         ({| stats.PodRef := r |}, e)
       else (old, None)).

Fixpoint decode_elements (vs : list json) : list stats.PodStats * error :=
  match vs with
  | [] => ([], None)
  | v :: vs' =>
      let '(p, e1) := decode_PodStats v stats.PodStats_zero in
      let '(ps, e2) := decode_elements vs' in
      (p :: ps, first_error e1 e2)
  end.

Definition decode_Pods (j : json) (old : list stats.PodStats)
  : list stats.PodStats * error :=
  match j with
  | JArray vs => decode_elements vs
  | JNull => (old, None)
  | _ => (old, Some (mismatch j "[]v1alpha1.PodStats"))
  end.

Definition decode_NodeStats : json -> stats.NodeStats -> stats.NodeStats * error :=
  decode_struct "v1alpha1.NodeStats"
    (fun key v old =>
       if fold_eqb key "nodeName" then
         let '(s, e) := decode_string v (stats.NodeName old) in
         ({| stats.NodeName := s |}, e)
       else (old, None)).

Definition decode_Summary : json -> stats.Summary -> stats.Summary * error :=
  decode_struct "v1alpha1.Summary"
    (fun key v old =>
       if fold_eqb key "node" then
         let '(n, e) := decode_NodeStats v (stats.Node old) in
         ({| stats.Node := n; stats.Pods := stats.Pods old |}, e)
       else if fold_eqb key "pods" then
         let '(ps, e) := decode_Pods v (stats.Pods old) in
         ({| stats.Node := stats.Node old; stats.Pods := ps |}, e)
       else (old, None)).

Definition syntax_error : error_value :=
  foreign "*json.SyntaxError" "invalid JSON text" None.

Definition Unmarshal (data : string) (old : stats.Summary) : stats.Summary * error :=
  match parse data with
  | None => (old, Some syntax_error)
  | Some j => decode_Summary j old
  end.

#[global] Instance runtime : Runtime := {|
  strconv_Quote := Quote;
  URL_String := url_String;
  http_NewRequest := NewRequest;
  RoundTripper := RawResponse + error_value;
  Network := nat;
  http_Client_Do := Do;
  Summary := stats.Summary;
  Summary_zero := stats.Summary_zero;
  json_Unmarshal := Unmarshal
|}.

(** *** Scripted runs *)

(** A process that has made no round trip, with [glog] at verbosity [v]. *)
Definition start (v : Z) : World :=
  {| network := 0%nat; clients := []; conns := []; glog_v := v; glog_out := [] |}.

(** A transport that answers with the given status and body. *)
Definition answers (status : string) (code : Z) (body : list read_event)
  : option (RawResponse + error_value) :=
  Some (inl {| raw_Status := status; raw_StatusCode := code; raw_Body := body |}).

(** [NewKubeletClient(transport, 10250, false)] in a fresh process, and then
    [GetSummary(host)] on the client it returns. *)
Definition fetch (transport : option (RawResponse + error_value)) (host : string)
  : Res (option stats.Summary * error) * World :=
  match NewKubeletClient transport 10250 false (start 0) with
  | (Val (kc, _), w) => GetSummary kc host w
  | (Panic msg, w) => (Panic msg, w)
  end.

(** The process [fetch] calls [GetSummary] in. *)
Definition installed (transport : option (RawResponse + error_value)) : World :=
  snd (NewKubeletClient transport 10250 false (start 0)).

(** The URL of the request for [node1] on port 10250. *)
Definition node1_url : URL :=
  {| Scheme := "https"; Opaque := EmptyString; User := None;
     Host := "node1:10250"; Path := "/stats/summary/"; RawPath := EmptyString;
     ForceQuery := false; RawQuery := EmptyString; Fragment := EmptyString |}.

(** A line of text as a server writes it, with the line feed at its end. *)
Definition line (s : string) : string := s +:+ String newline EmptyString.

(** A body that breaks off with a read error after its first bytes. *)
Definition broken_body : list read_event :=
  [Chunk "404 page"; Fail (errorString "unexpected EOF"); Chunk " not found"].

(** The body [{"node":{"nodeName":"n1"}}]. *)
Definition body_n1 : string :=
  "{" +:+ quoted "node" +:+ ":{" +:+ quoted "nodeName" +:+ ":" +:+ quoted "n1" +:+ "}}".

End Double.

(** ** Runs of the client *)

Section Outcomes.

Context {rt : Runtime}.

(** The process after a call that obtained a response: the network has
    moved to [n], the body of the response is the last connection, closed,
    with [rest] unread, and [glog] has written [out]. *)
Definition after_response (w : World) (n : Network) (rest : list read_event)
    (out : list string) : World :=
  {| network := n; clients := clients w;
     conns := conns w ++ [{| stream := rest; closed := true |}];
     glog_v := glog_v w; glog_out := out |}.

(** What [glog.V(10).Infof] leaves in the output. *)
Definition logged (w : World) (msg : string) : list string :=
  if 10 <=? glog_v w then glog_out w ++ [msg] else glog_out w.

(** The line that goes to the log at verbosity 10. *)
Definition raw_response_line (req : Request) (body : string) : string :=
  "Raw response from Kubelet at "
  +:+ match ReqURL req with
      | Some u => Host u
      | None => "[unknown]"
      end
  +:+ ": " +:+ body.

(** *** Every run of [GetSummary]

    The ways a call can go, each with what it returns and the state it
    leaves. *)
Inductive Run (kc : nat) (host : string) (w : World)
  : Res (option Summary * error) -> World -> Prop :=
  | Run_nil_receiver :
      clients w !! kc = None ->
      Run kc host w (Panic nil_dereference) w
  | Run_bad_request cfg e :
      clients w !! kc = Some cfg ->
      http_NewRequest "GET" (URL_String (GetSummary_url cfg host)) = inr e ->
      Run kc host w (Val (None, Some e)) w
  | Run_transport_error cfg req e n :
      clients w !! kc = Some cfg ->
      http_NewRequest "GET" (URL_String (GetSummary_url cfg host)) = inl req ->
      http_Client_Do (GetSummary_client cfg) req (network w) = (inr e, n) ->
      Run kc host w (Val (Some Summary_zero, Some e)) (set_network n w)
  | Run_read_error cfg req raw n data e rest :
      clients w !! kc = Some cfg ->
      http_NewRequest "GET" (URL_String (GetSummary_url cfg host)) = inl req ->
      http_Client_Do (GetSummary_client cfg) req (network w) = (inl raw, n) ->
      read_all (raw_Body raw) EmptyString = (data, Some e, rest) ->
      Run kc host w
        (Val (Some Summary_zero,
              Some (errorString ("failed to read response body - " +:+ verb_v e))))
        (after_response w n rest (glog_out w))
  | Run_not_found cfg req raw n body u :
      clients w !! kc = Some cfg ->
      http_NewRequest "GET" (URL_String (GetSummary_url cfg host)) = inl req ->
      http_Client_Do (GetSummary_client cfg) req (network w) = (inl raw, n) ->
      read_all (raw_Body raw) EmptyString = (body, None, []) ->
      raw_StatusCode raw = http_StatusNotFound ->
      ReqURL req = Some u ->
      Run kc host w
        (Val (Some Summary_zero,
              Some (ErrNotFound_ptr (Some {| endpoint := URL_String u |}))))
        (after_response w n [] (glog_out w))
  | Run_not_found_nil_URL cfg req raw n body :
      clients w !! kc = Some cfg ->
      http_NewRequest "GET" (URL_String (GetSummary_url cfg host)) = inl req ->
      http_Client_Do (GetSummary_client cfg) req (network w) = (inl raw, n) ->
      read_all (raw_Body raw) EmptyString = (body, None, []) ->
      raw_StatusCode raw = http_StatusNotFound ->
      ReqURL req = None ->
      Run kc host w (Panic nil_dereference) (after_response w n [] (glog_out w))
  | Run_status cfg req raw n body :
      clients w !! kc = Some cfg ->
      http_NewRequest "GET" (URL_String (GetSummary_url cfg host)) = inl req ->
      http_Client_Do (GetSummary_client cfg) req (network w) = (inl raw, n) ->
      read_all (raw_Body raw) EmptyString = (body, None, []) ->
      raw_StatusCode raw <> http_StatusNotFound ->
      raw_StatusCode raw <> http_StatusOK ->
      Run kc host w
        (Val (Some Summary_zero,
              Some (errorString
                      ("request failed - " +:+ strconv_Quote (raw_Status raw)
                       +:+ ", response: " +:+ strconv_Quote body))))
        (after_response w n [] (glog_out w))
  | Run_decoded cfg req raw n body s :
      clients w !! kc = Some cfg ->
      http_NewRequest "GET" (URL_String (GetSummary_url cfg host)) = inl req ->
      http_Client_Do (GetSummary_client cfg) req (network w) = (inl raw, n) ->
      read_all (raw_Body raw) EmptyString = (body, None, []) ->
      raw_StatusCode raw = http_StatusOK ->
      json_Unmarshal body Summary_zero = (s, None) ->
      Run kc host w (Val (Some s, None))
        (after_response w n [] (logged w (raw_response_line req body)))
  | Run_decode_error cfg req raw n body s e :
      clients w !! kc = Some cfg ->
      http_NewRequest "GET" (URL_String (GetSummary_url cfg host)) = inl req ->
      http_Client_Do (GetSummary_client cfg) req (network w) = (inl raw, n) ->
      read_all (raw_Body raw) EmptyString = (body, None, []) ->
      raw_StatusCode raw = http_StatusOK ->
      json_Unmarshal body Summary_zero = (s, Some e) ->
      Run kc host w
        (Val (Some s,
              Some (errorString
                      ("failed to parse output. Response: " +:+ strconv_Quote body
                       +:+ ". Error: " +:+ verb_v e))))
        (after_response w n [] (logged w (raw_response_line req body))).

(** The outcome is an error that is not the not-found error and whose text
    holds each of [texts]. *)
Definition fails_with_texts (out : Res (option Summary * error))
    (texts : list string) : Prop :=
  exists res e,
    out = Val (res, Some e) /\
    IsNotFoundError (Some e) = false /\
    Forall (fun t => occurs_in t (verb_v e)) texts.

(** The outcome is a result or an error and never both. *)
Definition one_result_or_one_error (out : Res (option Summary * error)) : Prop :=
  forall res err,
    out = Val (res, err) ->
    (err <> None -> res = None) /\ (res <> None -> err = None).

End Outcomes.

(** ** What the rest of the client is measured by *)

(** Whether a colon occurs in [s]. *)
Fixpoint has_colon (s : string) : bool :=
  match s with
  | EmptyString => false
  | String c s' => Ascii.eqb c ":" || has_colon s'
  end.

(** No response body is open. *)
Definition all_closed (bs : list Body) : Prop :=
  Forall (fun b => closed b = true) bs.

Section Logging.

Context {rt : Runtime}.

(** The same process with [glog] at verbosity [v] and with [out] written. *)
Definition with_glog (v : Z) (out : list string) (w : World) : World :=
  {| network := network w; clients := clients w; conns := conns w;
     glog_v := v; glog_out := out |}.

End Logging.

(** A runtime that keeps, beside its network, the record of the calls of
    [Client.Do]: the client and the request of each, in order. *)
Definition recording (rt : Runtime) : Runtime :=
  {| strconv_Quote := @strconv_Quote rt;
     URL_String := @URL_String rt;
     http_NewRequest := @http_NewRequest rt;
     RoundTripper := @RoundTripper rt;
     Network := @Network rt * list (http_Client (@RoundTripper rt) * Request);
     http_Client_Do := fun c req st =>
       let '(answer, n) := @http_Client_Do rt c req (fst st) in
       (answer, (n, snd st ++ [(c, req)]));
     Summary := @Summary rt;
     Summary_zero := @Summary_zero rt;
     json_Unmarshal := @json_Unmarshal rt |}.

(** A process of the double that has made no round trip and records its
    calls of [Client.Do]. *)
Definition recorded_start : @World (recording Double.runtime) :=
  {| network := ((0%nat, []) : @Network (recording Double.runtime));
     clients := []; conns := []; glog_v := 0; glog_out := [] |}.

(** The double on the texts used below. *)

Example verb_d_10250 : verb_d 10250 = "10250" /\ verb_d 0 = "0".
Proof. split; reflexivity. Qed.

Example Quote_line :
  Double.Quote (Double.line "not json")
  = Double.quoted ("not json" +:+ String Double.backslash "n").
Proof. reflexivity. Qed.

Example url_String_node1 :
  Double.url_String
    (GetSummary_url
       {| portIsInsecure := false; port := 10250; client := None |} "node1")
  = "https://node1:10250/stats/summary/".
Proof. reflexivity. Qed.

Example url_String_insecure :
  Double.url_String
    (GetSummary_url
       {| portIsInsecure := true; port := 10255; client := None |} "10.0.0.7")
  = "http://10.0.0.7:10255/stats/summary/".
Proof. reflexivity. Qed.

Example NewRequest_node1 :
  Double.NewRequest "GET" "https://node1:10250/stats/summary/"
  = inl {| Method := "GET"; ReqURL := Some Double.node1_url |}.
Proof. reflexivity. Qed.

(** A value of the wrong kind is skipped and reported, and the fields
    around it are decoded all the same. *)
Example Unmarshal_partial :
  Double.Unmarshal
    ("{" +:+ Double.quoted "node" +:+ ":{" +:+ Double.quoted "nodeName" +:+ ":"
     +:+ Double.quoted "n1" +:+ "}," +:+ Double.quoted "pods" +:+ ":5}")
    Double.stats.Summary_zero
  = ({| Double.stats.Node := {| Double.stats.NodeName := "n1" |};
        Double.stats.Pods := [] |},
     Some (Double.mismatch (Double.JNumber "5") "[]v1alpha1.PodStats")).
Proof. reflexivity. Qed.

(** ** Text inside text *)

Lemma append_nil_l (b : string) : EmptyString +:+ b = b.
Proof. reflexivity. Qed.

Lemma append_cons (c : ascii) (a b : string) :
  String c a +:+ b = String c (a +:+ b).
Proof. reflexivity. Qed.

Lemma append_nil_r (a : string) : a +:+ EmptyString = a.
Proof.
  induction a as [|c a IH]; [reflexivity|]. now rewrite append_cons, IH.
Qed.

Lemma append_assoc (a b c : string) : (a +:+ b) +:+ c = a +:+ b +:+ c.
Proof.
  induction a as [|x a IH]; [reflexivity|]. now rewrite !append_cons, IH.
Qed.

Lemma has_prefix_app (p b : string) : has_prefix (p +:+ b) p = true.
Proof.
  induction p as [|c p IH]; [reflexivity|].
  rewrite append_cons. simpl. now rewrite Ascii.eqb_refl.
Qed.

Lemma has_prefix_inv (s p : string) :
  has_prefix s p = true -> exists b, s = p +:+ b.
Proof.
  revert s. induction p as [|c p IH]; intros s H; simpl in H.
  - now exists s.
  - destruct s as [|d s]; [discriminate|].
    destruct (Ascii.eqb c d) eqn:E; [|discriminate].
    apply Ascii.eqb_eq in E. subst d.
    destruct (IH s H) as [b ->]. now exists b.
Qed.

Lemma contains_prefix (s sub : string) :
  has_prefix s sub = true -> contains s sub = true.
Proof. intros H. destruct s; simpl; now rewrite H. Qed.

Lemma contains_occurs (s sub : string) :
  contains s sub = true <-> occurs_in sub s.
Proof.
  split.
  - induction s as [|c s IH]; simpl; intros H.
    + destruct (has_prefix EmptyString sub) eqn:E; [|discriminate].
      destruct (has_prefix_inv _ _ E) as [b Hb]. now exists EmptyString, b.
    + destruct (has_prefix (String c s) sub) eqn:E.
      * destruct (has_prefix_inv _ _ E) as [b Hb]. now exists EmptyString, b.
      * destruct (IH H) as (a & b & ->). now exists (String c a), b.
  - intros (a & b & ->). induction a as [|c a IH].
    + apply contains_prefix. exact (has_prefix_app sub b).
    + rewrite append_cons. simpl. rewrite IH. now destruct (has_prefix _ sub).
Qed.

Lemma not_contains_not_occurs (s sub : string) :
  contains s sub = false -> ~ occurs_in sub s.
Proof.
  intros H Hocc. apply contains_occurs in Hocc. congruence.
Qed.

Lemma occurs_in_here (sub b : string) : occurs_in sub (sub +:+ b).
Proof. now exists EmptyString, b. Qed.

Lemma occurs_in_end (sub : string) : occurs_in sub sub.
Proof.
  exists EmptyString, EmptyString. now rewrite append_nil_l, append_nil_r.
Qed.

Lemma occurs_in_later (sub a s : string) :
  occurs_in sub s -> occurs_in sub (a +:+ s).
Proof.
  intros (x & y & ->). exists (a +:+ x), y. now rewrite append_assoc.
Qed.

Create HintDb occurs.
#[local] Hint Resolve occurs_in_here occurs_in_end occurs_in_later : occurs.

(** ** Each way through the client *)

Section Runs.

Context {rt : Runtime}.

Lemma read_all_eof (evs : list read_event) (acc data : string)
    (rest : list read_event) :
  read_all evs acc = (data, None, rest) -> rest = [].
Proof.
  revert acc. induction evs as [|[d|e] evs IH]; simpl; intros acc H.
  - now inversion H.
  - eauto.
  - discriminate.
Qed.

Lemma insert_last {A} (l : list A) (b b' : A) :
  <[length l := b']> (l ++ [b]) = l ++ [b'].
Proof. induction l as [|x l IH]; simpl; [reflexivity|]. f_equal. exact IH. Qed.

Lemma alter_last {A} (f : A -> A) (l : list A) (b : A) :
  alter f (length l) (l ++ [b]) = l ++ [f b].
Proof. induction l as [|x l IH]; simpl; [reflexivity|]. f_equal. exact IH. Qed.

Lemma lookup_last {A} (l : list A) (b : A) : (l ++ [b]) !! length l = Some b.
Proof. induction l as [|x l IH]; simpl; [reflexivity|]. exact IH. Qed.

Section Answered.

Variables (kc : nat) (cfg : kubeletClient) (host : string) (w : World).
Variables (req : Request) (raw : RawResponse) (n : Network).
Hypothesis Hkc : clients w !! kc = Some cfg.
Hypothesis Hreq :
  http_NewRequest "GET" (URL_String (GetSummary_url cfg host)) = inl req.
Hypothesis Hdo :
  http_Client_Do (GetSummary_client cfg) req (network w) = (inl raw, n).

(** Up to the point where the body has been read. *)
Ltac read_body Hread :=
  unfold GetSummary, bind, deref; rewrite Hkc, Hreq;
  unfold postRequestAndGetValue, bind, defer, client_Do; rewrite Hdo;
  unfold ioutil_ReadAll;
  cbn [conns set_conns set_network Body_ref StatusCode Status];
  rewrite lookup_last; cbn [closed stream]; rewrite Hread;
  rewrite insert_last.

(** From there to the return, closing the body on the way out. *)
Ltac leave :=
  unfold URL_ptr_String, ret, panic, Body_Close, after_response;
  cbn [conns set_conns set_network set_glog_out network clients glog_v glog_out
       negb];
  rewrite ?alter_last; reflexivity.

Lemma run_read_error (data : string) (e : error_value) (rest : list read_event) :
  read_all (raw_Body raw) EmptyString = (data, Some e, rest) ->
  GetSummary kc host w =
    (Val (Some Summary_zero,
          Some (errorString ("failed to read response body - " +:+ verb_v e))),
     after_response w n rest (glog_out w)).
Proof. intros Hread. read_body Hread. leave. Qed.

Lemma run_not_found (body : string) (rest : list read_event) (u : URL) :
  read_all (raw_Body raw) EmptyString = (body, None, rest) ->
  raw_StatusCode raw = http_StatusNotFound ->
  ReqURL req = Some u ->
  GetSummary kc host w =
    (Val (Some Summary_zero,
          Some (ErrNotFound_ptr (Some {| endpoint := URL_String u |}))),
     after_response w n rest (glog_out w)).
Proof.
  intros Hread Hcode Hurl. read_body Hread.
  rewrite Hcode, Z.eqb_refl, Hurl. leave.
Qed.

Lemma run_not_found_nil_URL (body : string) (rest : list read_event) :
  read_all (raw_Body raw) EmptyString = (body, None, rest) ->
  raw_StatusCode raw = http_StatusNotFound ->
  ReqURL req = None ->
  GetSummary kc host w =
    (Panic nil_dereference, after_response w n rest (glog_out w)).
Proof.
  intros Hread Hcode Hurl. read_body Hread.
  rewrite Hcode, Z.eqb_refl, Hurl. leave.
Qed.

Lemma run_status (body : string) (rest : list read_event) :
  read_all (raw_Body raw) EmptyString = (body, None, rest) ->
  raw_StatusCode raw <> http_StatusNotFound ->
  raw_StatusCode raw <> http_StatusOK ->
  GetSummary kc host w =
    (Val (Some Summary_zero,
          Some (errorString
                  ("request failed - " +:+ strconv_Quote (raw_Status raw)
                   +:+ ", response: " +:+ strconv_Quote body))),
     after_response w n rest (glog_out w)).
Proof.
  intros Hread H404 H200. read_body Hread.
  apply Z.eqb_neq in H404, H200. rewrite H404, H200. leave.
Qed.

Lemma run_decoded (body : string) (rest : list read_event) (s : Summary) :
  read_all (raw_Body raw) EmptyString = (body, None, rest) ->
  raw_StatusCode raw = http_StatusOK ->
  json_Unmarshal body Summary_zero = (s, None) ->
  GetSummary kc host w =
    (Val (Some s, None),
     after_response w n rest (logged w (raw_response_line req body))).
Proof.
  intros Hread Hcode Hjson. read_body Hread.
  rewrite Hcode. cbn [Z.eqb http_StatusOK http_StatusNotFound Pos.eqb negb].
  unfold glog_V_Infof, logged.
  cbn [glog_v set_conns set_network]. rewrite Hjson.
  destruct (10 <=? glog_v w); leave.
Qed.

Lemma run_decode_error (body : string) (rest : list read_event) (s : Summary)
    (e : error_value) :
  read_all (raw_Body raw) EmptyString = (body, None, rest) ->
  raw_StatusCode raw = http_StatusOK ->
  json_Unmarshal body Summary_zero = (s, Some e) ->
  GetSummary kc host w =
    (Val (Some s,
          Some (errorString
                  ("failed to parse output. Response: " +:+ strconv_Quote body
                   +:+ ". Error: " +:+ verb_v e))),
     after_response w n rest (logged w (raw_response_line req body))).
Proof.
  intros Hread Hcode Hjson. read_body Hread.
  rewrite Hcode. cbn [Z.eqb http_StatusOK http_StatusNotFound Pos.eqb negb].
  unfold glog_V_Infof, logged.
  cbn [glog_v set_conns set_network]. rewrite Hjson.
  destruct (10 <=? glog_v w); leave.
Qed.

End Answered.

Lemma run_nil_receiver (kc : nat) (host : string) (w : World) :
  clients w !! kc = None ->
  GetSummary kc host w = (Panic nil_dereference, w).
Proof. intros Hkc. unfold GetSummary, bind, deref. now rewrite Hkc. Qed.

Lemma run_bad_request (kc : nat) (cfg : kubeletClient) (host : string)
    (w : World) (e : error_value) :
  clients w !! kc = Some cfg ->
  http_NewRequest "GET" (URL_String (GetSummary_url cfg host)) = inr e ->
  GetSummary kc host w = (Val (None, Some e), w).
Proof.
  intros Hkc Hreq. unfold GetSummary, bind, deref. now rewrite Hkc, Hreq.
Qed.

Lemma run_transport_error (kc : nat) (cfg : kubeletClient) (host : string)
    (w : World) (req : Request) (e : error_value) (n : Network) :
  clients w !! kc = Some cfg ->
  http_NewRequest "GET" (URL_String (GetSummary_url cfg host)) = inl req ->
  http_Client_Do (GetSummary_client cfg) req (network w) = (inr e, n) ->
  GetSummary kc host w = (Val (Some Summary_zero, Some e), set_network n w).
Proof.
  intros Hkc Hreq Hdo. unfold GetSummary, bind, deref. rewrite Hkc, Hreq.
  unfold postRequestAndGetValue, bind, client_Do. now rewrite Hdo.
Qed.

Ltac goes_by lem :=
  do 2 eexists; split; [eapply lem; eassumption | econstructor; eassumption].

(** [GetSummary] always goes one of these ways. *)
Lemma GetSummary_Run (kc : nat) (host : string) (w : World) :
  exists r w', GetSummary kc host w = (r, w') /\ Run kc host w r w'.
Proof.
  destruct (clients w !! kc) as [cfg|] eqn:Hkc; [|goes_by run_nil_receiver].
  destruct (http_NewRequest "GET" (URL_String (GetSummary_url cfg host)))
    as [req|e] eqn:Hreq; [|goes_by run_bad_request].
  destruct (http_Client_Do (GetSummary_client cfg) req (network w))
    as [[raw|e] n] eqn:Hdo; [|goes_by run_transport_error].
  destruct (read_all (raw_Body raw) EmptyString) as [[body [e|]] rest] eqn:Hread;
    [goes_by run_read_error|].
  assert (rest = []) as -> by eauto using read_all_eof.
  destruct (Z.eq_dec (raw_StatusCode raw) http_StatusNotFound) as [H404|H404].
  { destruct (ReqURL req) as [u|] eqn:Hurl;
      [goes_by run_not_found | goes_by run_not_found_nil_URL]. }
  destruct (Z.eq_dec (raw_StatusCode raw) http_StatusOK) as [H200|H200];
    [|goes_by run_status].
  destruct (json_Unmarshal body Summary_zero) as [s [e|]] eqn:Hjson;
    [goes_by run_decode_error | goes_by run_decoded].
Qed.

(** And a way it can go is the way it goes. *)
Lemma Run_GetSummary (kc : nat) (host : string) (w w' : World)
    (r : Res (option Summary * error)) :
  Run kc host w r w' -> GetSummary kc host w = (r, w').
Proof.
  destruct 1;
    eauto using run_nil_receiver, run_bad_request, run_transport_error,
      run_read_error, run_not_found, run_not_found_nil_URL, run_status,
      run_decoded, run_decode_error.
Qed.

End Runs.

(** ** What the specification says of the client *)

Section Claims.

Context {rt : Runtime}.

Lemma occurs_in_trans (a b c : string) :
  occurs_in a b -> occurs_in b c -> occurs_in a c.
Proof.
  intros (x & y & ->) (x' & y' & ->).
  exists (x' +:+ x), (y +:+ y'). now rewrite !append_assoc.
Qed.

Lemma Run_clients (kc : nat) (host : string) (w w' : World)
    (r : Res (option Summary * error)) :
  Run kc host w r w' -> clients w' = clients w.
Proof. now destruct 1. Qed.

(** C1: when the transport answers the request that was built with status
    404 and the body reads to its end, [GetSummary] returns the
    [*ErrNotFound] whose endpoint is the string of the request's URL, and
    [IsNotFoundError] holds of it. *)
Theorem GetSummary_not_found (kc : nat) (cfg : kubeletClient) (host : string)
    (w : World) (req : Request) (u : URL) (raw : RawResponse) (n : Network)
    (body : string) :
  clients w !! kc = Some cfg ->
  http_NewRequest "GET" (URL_String (GetSummary_url cfg host)) = inl req ->
  ReqURL req = Some u ->
  http_Client_Do (GetSummary_client cfg) req (network w) = (inl raw, n) ->
  raw_StatusCode raw = 404 ->
  read_all (raw_Body raw) EmptyString = (body, None, []) ->
  exists res err,
    fst (GetSummary kc host w) = Val (res, err) /\
    err = Some (ErrNotFound_ptr (Some {| endpoint := URL_String u |})) /\
    IsNotFoundError err = true.
Proof.
  intros Hkc Hreq Hurl Hdo Hcode Hread.
  erewrite run_not_found by eassumption. simpl. eauto.
Qed.

(** C2: [GetSummary] builds one URL for the host and makes its request from
    the string of that URL: a [GET] by [http.NewRequest], whose error it
    returns with a nil pointer, and whose request it sends.  That URL has
    scheme [http] exactly when the client was made with [portIsInsecure] and
    [https] otherwise, has the host followed by a colon and the port in
    decimal as its host component, has the path [/stats/summary/], and has
    no query (nor user, opaque part or fragment). *)
Theorem GetSummary_url_shape (kc : nat) (cfg : kubeletClient) (host : string)
    (w : World) :
  clients w !! kc = Some cfg ->
  exists u : URL,
    (Scheme u = "http" <-> portIsInsecure cfg = true) /\
    (Scheme u = "https" <-> portIsInsecure cfg = false) /\
    Host u = host +:+ ":" +:+ verb_d (port cfg) /\
    Path u = "/stats/summary/" /\
    RawQuery u = EmptyString /\ ForceQuery u = false /\
    Opaque u = EmptyString /\ User u = None /\
    RawPath u = EmptyString /\ Fragment u = EmptyString /\
    match http_NewRequest "GET" (URL_String u) with
    | inr e => GetSummary kc host w = (Val (None, Some e), w)
    | inl req =>
        GetSummary kc host w =
          (let '(r, w1) :=
             postRequestAndGetValue kc (GetSummary_client cfg) req Summary_zero w in
           (match r with
            | Val (s, err) => Val (Some s, err)
            | Panic msg => Panic msg
            end, w1))
    end.
Proof.
  intros Hkc. exists (GetSummary_url cfg host).
  assert (Hshape : forall u, u = GetSummary_url cfg host ->
            (Scheme u = "http" <-> portIsInsecure cfg = true) /\
            (Scheme u = "https" <-> portIsInsecure cfg = false) /\
            Host u = host +:+ ":" +:+ verb_d (port cfg) /\
            Path u = "/stats/summary/" /\
            RawQuery u = EmptyString /\ ForceQuery u = false /\
            Opaque u = EmptyString /\ User u = None /\
            RawPath u = EmptyString /\ Fragment u = EmptyString).
  { intros u ->. unfold GetSummary_url. destruct (portIsInsecure cfg); simpl;
      repeat split; intros; congruence. }
  destruct (Hshape _ eq_refl) as (H1 & H2 & H3 & H4 & H5 & H6 & H7 & H8 & H9 & H10).
  repeat (split; [assumption|]).
  unfold GetSummary, bind, deref. rewrite Hkc.
  destruct (http_NewRequest "GET" (URL_String (GetSummary_url cfg host)))
    as [req|e]; [|reflexivity].
  now destruct (postRequestAndGetValue kc (GetSummary_client cfg) req Summary_zero w)
    as [[[s err]|msg] w1].
Qed.

(** C3: [IsNotFoundError] is a function of its argument alone and is true
    exactly of a [*ErrNotFound]; it is false of nil, of an error made by
    [fmt.Errorf], and of an error of any other type, whatever it wraps, a
    [*ErrNotFound] one level down included. *)
Theorem IsNotFoundError_exactly (err : error) :
  (IsNotFoundError err = true <-> exists p, err = Some (ErrNotFound_ptr p)) /\
  IsNotFoundError None = false /\
  (forall s, IsNotFoundError (Some (errorString s)) = false) /\
  (forall type_name msg cause,
     IsNotFoundError (Some (foreign type_name msg cause)) = false) /\
  (forall type_name msg p,
     IsNotFoundError (Some (foreign type_name msg (Some (ErrNotFound_ptr p)))) = false).
Proof.
  repeat split; try reflexivity.
  - destruct err as [[p| |]|]; simpl; try discriminate. eauto.
  - now intros [p ->].
Qed.

(** C4, as the client has it: a call returns a pointer and an error and
    never nil with nil.  A nil error comes only with the summary that
    [json.Unmarshal] decoded without error from the whole body of a 200
    response.  An error comes with a nil pointer only when the request could
    not be built; after a transport error, a read error, a 404, another
    status or a decode error it comes with the pointer to the summary made
    for the call: the zero summary, or, after a decode error, the summary as
    [json.Unmarshal] left it when it failed on the body of the response.  A
    call panics only on a nil receiver or on a 404 for a request without
    URL. *)
Theorem GetSummary_result_and_error (kc : nat) (host : string) (w : World) :
  match fst (GetSummary kc host w) with
  | Val (None, None) => False
  | Val (None, Some e) =>
      exists cfg,
        clients w !! kc = Some cfg /\
        http_NewRequest "GET" (URL_String (GetSummary_url cfg host)) = inr e
  | Val (Some s, None) =>
      exists cfg req raw n body,
        clients w !! kc = Some cfg /\
        http_NewRequest "GET" (URL_String (GetSummary_url cfg host)) = inl req /\
        http_Client_Do (GetSummary_client cfg) req (network w) = (inl raw, n) /\
        read_all (raw_Body raw) EmptyString = (body, None, []) /\
        raw_StatusCode raw = 200 /\
        json_Unmarshal body Summary_zero = (s, None)
  | Val (Some s, Some e) =>
      exists cfg req,
        clients w !! kc = Some cfg /\
        http_NewRequest "GET" (URL_String (GetSummary_url cfg host)) = inl req /\
        ((exists n,
            http_Client_Do (GetSummary_client cfg) req (network w) = (inr e, n) /\
            s = Summary_zero) \/
         (exists raw n body err rest,
            http_Client_Do (GetSummary_client cfg) req (network w) = (inl raw, n) /\
            read_all (raw_Body raw) EmptyString = (body, err, rest) /\
            ((exists e0,
                err = Some e0 /\ s = Summary_zero /\
                e = errorString ("failed to read response body - " +:+ verb_v e0)) \/
             (exists u,
                err = None /\ raw_StatusCode raw = 404 /\ ReqURL req = Some u /\
                s = Summary_zero /\
                e = ErrNotFound_ptr (Some {| endpoint := URL_String u |})) \/
             (err = None /\ raw_StatusCode raw <> 404 /\ raw_StatusCode raw <> 200 /\
              s = Summary_zero /\
              e = errorString
                    ("request failed - " +:+ strconv_Quote (raw_Status raw)
                     +:+ ", response: " +:+ strconv_Quote body)) \/
             (exists e',
                err = None /\ raw_StatusCode raw = 200 /\
                json_Unmarshal body Summary_zero = (s, Some e') /\
                e = errorString
                      ("failed to parse output. Response: " +:+ strconv_Quote body
                       +:+ ". Error: " +:+ verb_v e')))))
  | Panic _ =>
      clients w !! kc = None \/
      exists cfg req raw n body,
        clients w !! kc = Some cfg /\
        http_NewRequest "GET" (URL_String (GetSummary_url cfg host)) = inl req /\
        http_Client_Do (GetSummary_client cfg) req (network w) = (inl raw, n) /\
        read_all (raw_Body raw) EmptyString = (body, None, []) /\
        raw_StatusCode raw = 404 /\
        ReqURL req = None
  end.
Proof.
  destruct (GetSummary_Run kc host w) as (r & w' & -> & HRun).
  destruct HRun; cbn [fst].
  - now left.
  - eauto.
  - do 2 eexists. do 2 (split; [eassumption|]). left. eauto.
  - do 2 eexists. do 2 (split; [eassumption|]). right.
    do 5 eexists. do 2 (split; [eassumption|]). left. eauto.
  - do 2 eexists. do 2 (split; [eassumption|]). right.
    do 5 eexists. do 2 (split; [eassumption|]). right. left. eauto 7.
  - right. eauto 12.
  - do 2 eexists. do 2 (split; [eassumption|]). right.
    do 5 eexists. do 2 (split; [eassumption|]). right. right. left. eauto 7.
  - eauto 12.
  - do 2 eexists. do 2 (split; [eassumption|]). right.
    do 5 eexists. do 2 (split; [eassumption|]). right. right. right. eauto 7.
Qed.

(** C5: when the transport answers with status 200 and a body that
    [json.Unmarshal] decodes without error, [GetSummary] returns the decoded
    summary and a nil error. *)
Theorem GetSummary_decoded (kc : nat) (cfg : kubeletClient) (host : string)
    (w : World) (req : Request) (raw : RawResponse) (n : Network)
    (body : string) (s : Summary) :
  clients w !! kc = Some cfg ->
  http_NewRequest "GET" (URL_String (GetSummary_url cfg host)) = inl req ->
  http_Client_Do (GetSummary_client cfg) req (network w) = (inl raw, n) ->
  raw_StatusCode raw = 200 ->
  read_all (raw_Body raw) EmptyString = (body, None, []) ->
  json_Unmarshal body Summary_zero = (s, None) ->
  fst (GetSummary kc host w) = Val (Some s, None).
Proof.
  intros Hkc Hreq Hdo Hcode Hread Hjson.
  now erewrite run_decoded by eassumption.
Qed.

(** C6, as the client has it: when the transport answers with status 200
    and a body on which [json.Unmarshal] fails, [GetSummary] returns an
    error that is not the not-found error; its text holds the body as [%q]
    writes it, between double quotes and with escapes, and the text of the
    decoding error; it holds the body as received whenever the quoted body
    does. *)
Theorem GetSummary_decode_error (kc : nat) (cfg : kubeletClient) (host : string)
    (w : World) (req : Request) (raw : RawResponse) (n : Network)
    (body : string) (s : Summary) (e : error_value) :
  clients w !! kc = Some cfg ->
  http_NewRequest "GET" (URL_String (GetSummary_url cfg host)) = inl req ->
  http_Client_Do (GetSummary_client cfg) req (network w) = (inl raw, n) ->
  raw_StatusCode raw = 200 ->
  read_all (raw_Body raw) EmptyString = (body, None, []) ->
  json_Unmarshal body Summary_zero = (s, Some e) ->
  fst (GetSummary kc host w) =
    Val (Some s,
         Some (errorString
                 ("failed to parse output. Response: " +:+ strconv_Quote body
                  +:+ ". Error: " +:+ verb_v e))) /\
  fails_with_texts (fst (GetSummary kc host w)) [strconv_Quote body; verb_v e] /\
  (occurs_in body (strconv_Quote body) ->
   fails_with_texts (fst (GetSummary kc host w)) [body; verb_v e]).
Proof.
  intros Hkc Hreq Hdo Hcode Hread Hjson.
  erewrite run_decode_error by eassumption. simpl.
  assert (Hq : occurs_in (strconv_Quote body)
                 ("failed to parse output. Response: " +:+ strconv_Quote body
                  +:+ ". Error: " +:+ verb_v e)) by auto with occurs.
  assert (He : occurs_in (verb_v e)
                 ("failed to parse output. Response: " +:+ strconv_Quote body
                  +:+ ". Error: " +:+ verb_v e)) by auto with occurs.
  split; [reflexivity|]. split.
  - do 2 eexists. split; [reflexivity|]. split; [reflexivity|].
    constructor; [assumption | constructor; [assumption | constructor]].
  - intros Hraw. do 2 eexists. split; [reflexivity|]. split; [reflexivity|].
    constructor; [eauto using occurs_in_trans |].
    constructor; [eauto using occurs_in_trans | constructor].
Qed.

(** C7, as the client has it: when [Client.Do] hands back a response with
    a status that is neither 200 nor 404 (the response of the transport,
    unless the [http.Client] followed a redirect and got another), and its
    body reads to the end, [GetSummary] returns an error that is not
    the not-found error; its text holds the status line and the whole body,
    each as [%q] writes it, between double quotes and with escapes; it holds
    them as received whenever their quoted forms do. *)
Theorem GetSummary_status_error (kc : nat) (cfg : kubeletClient) (host : string)
    (w : World) (req : Request) (raw : RawResponse) (n : Network)
    (body : string) :
  clients w !! kc = Some cfg ->
  http_NewRequest "GET" (URL_String (GetSummary_url cfg host)) = inl req ->
  http_Client_Do (GetSummary_client cfg) req (network w) = (inl raw, n) ->
  raw_StatusCode raw <> 200 ->
  raw_StatusCode raw <> 404 ->
  read_all (raw_Body raw) EmptyString = (body, None, []) ->
  fst (GetSummary kc host w) =
    Val (Some Summary_zero,
         Some (errorString
                 ("request failed - " +:+ strconv_Quote (raw_Status raw)
                  +:+ ", response: " +:+ strconv_Quote body))) /\
  fails_with_texts (fst (GetSummary kc host w))
    [strconv_Quote (raw_Status raw); strconv_Quote body] /\
  (occurs_in (raw_Status raw) (strconv_Quote (raw_Status raw)) ->
   occurs_in body (strconv_Quote body) ->
   fails_with_texts (fst (GetSummary kc host w)) [raw_Status raw; body]).
Proof.
  intros Hkc Hreq Hdo H200 H404 Hread.
  erewrite run_status by eassumption. simpl.
  assert (Hs : occurs_in (strconv_Quote (raw_Status raw))
                 ("request failed - " +:+ strconv_Quote (raw_Status raw)
                  +:+ ", response: " +:+ strconv_Quote body)) by auto with occurs.
  assert (Hb : occurs_in (strconv_Quote body)
                 ("request failed - " +:+ strconv_Quote (raw_Status raw)
                  +:+ ", response: " +:+ strconv_Quote body)) by auto with occurs.
  split; [reflexivity|]. split.
  - do 2 eexists. split; [reflexivity|]. split; [reflexivity|].
    constructor; [assumption | constructor; [assumption | constructor]].
  - intros Hrs Hrb. do 2 eexists. split; [reflexivity|]. split; [reflexivity|].
    constructor; [eauto using occurs_in_trans |].
    constructor; [eauto using occurs_in_trans | constructor].
Qed.

(** C8: once a call has obtained a response, every way out of it leaves the
    body of that response closed, and the connections that were there before
    as they were; on the ways out where the body was read to its end (the
    decoded summary, the 404, the other statuses, the decode error) nothing
    of the body is left unread. *)
Theorem GetSummary_releases_body (kc : nat) (cfg : kubeletClient) (host : string)
    (w : World) (req : Request) (raw : RawResponse) (n : Network)
    (data : string) (err : error) (rest : list read_event) :
  clients w !! kc = Some cfg ->
  http_NewRequest "GET" (URL_String (GetSummary_url cfg host)) = inl req ->
  http_Client_Do (GetSummary_client cfg) req (network w) = (inl raw, n) ->
  read_all (raw_Body raw) EmptyString = (data, err, rest) ->
  let w' := snd (GetSummary kc host w) in
  conns w' = conns w ++ [{| stream := rest; closed := true |}] /\
  (err = None ->
   conns w' !! length (conns w) = Some {| stream := []; closed := true |}).
Proof.
  intros Hkc Hreq Hdo Hread w'. subst w'.
  assert (Hconns : conns (snd (GetSummary kc host w))
                   = conns w ++ [{| stream := rest; closed := true |}]).
  { destruct err as [e|]; [now erewrite run_read_error by eassumption|].
    assert (rest = []) as -> by eauto using read_all_eof.
    destruct (Z.eq_dec (raw_StatusCode raw) http_StatusNotFound) as [H404|H404].
    { destruct (ReqURL req) as [u|] eqn:Hurl.
      - now erewrite run_not_found by eassumption.
      - now erewrite run_not_found_nil_URL by eassumption. }
    destruct (Z.eq_dec (raw_StatusCode raw) http_StatusOK) as [H200|H200].
    - destruct (json_Unmarshal data Summary_zero) as [s [e|]] eqn:Hjson.
      + now erewrite run_decode_error by eassumption.
      + now erewrite run_decoded by eassumption.
    - now erewrite run_status by eassumption. }
  split; [exact Hconns|].
  intros ->. rewrite Hconns.
  assert (rest = []) as -> by eauto using read_all_eof.
  apply lookup_last.
Qed.

(** A call in another state of the process, where the client object is the
    same and the transport answers the request for this host the same,
    returns the same. *)
Lemma same_answer_same_result (kc : nat) (host : string) (w w' w1 : World)
    (r : Res (option Summary * error)) :
  Run kc host w r w1 ->
  clients w' !! kc = clients w !! kc ->
  (forall cfg req,
     clients w !! kc = Some cfg ->
     http_NewRequest "GET" (URL_String (GetSummary_url cfg host)) = inl req ->
     fst (http_Client_Do (GetSummary_client cfg) req (network w'))
     = fst (http_Client_Do (GetSummary_client cfg) req (network w))) ->
  fst (GetSummary kc host w') = r.
Proof.
  intros HRun Hkc Hnet.
  destruct HRun;
    try match goal with
    | Hc : clients w !! kc = Some ?cfg,
      Hr : http_NewRequest _ _ = inl ?req,
      Hd : http_Client_Do _ ?req (network w) = _ |- _ =>
        specialize (Hnet cfg req Hc Hr); rewrite Hd in Hnet;
        destruct (http_Client_Do (GetSummary_client cfg) req (network w'))
          as [a n'] eqn:Hdo';
        simpl in Hnet; subst a
    end;
    match goal with
    | H : clients w !! kc = _ |- _ => rewrite H in Hkc
    end.
  - now erewrite run_nil_receiver by eassumption.
  - now erewrite run_bad_request by eassumption.
  - now erewrite run_transport_error by eassumption.
  - now erewrite run_read_error by eassumption.
  - now erewrite run_not_found by eassumption.
  - now erewrite run_not_found_nil_URL by eassumption.
  - now erewrite run_status by eassumption.
  - now erewrite run_decoded by eassumption.
  - now erewrite run_decode_error by eassumption.
Qed.

(** C9: of two calls in a row for the same host, with a transport that
    answers the request for that host after the first call as it did before
    it, the second returns what the first returned; and no call changes a
    client object.  Nothing is asked of the answers to other requests or
    through other clients. *)
Theorem GetSummary_stateless (kc : nat) (host : string) (w : World) :
  let first := GetSummary kc host w in
  let second := GetSummary kc host (snd first) in
  (forall cfg req,
     clients w !! kc = Some cfg ->
     http_NewRequest "GET" (URL_String (GetSummary_url cfg host)) = inl req ->
     fst (http_Client_Do (GetSummary_client cfg) req (network (snd first)))
     = fst (http_Client_Do (GetSummary_client cfg) req (network w))) ->
  fst second = fst first /\
  clients (snd first) = clients w /\
  clients (snd second) = clients w.
Proof.
  intros first second Hnet. subst first second.
  destruct (GetSummary_Run kc host w) as (r & w1 & E & HRun).
  rewrite E in *. simpl in *.
  pose proof (Run_clients _ _ _ _ _ HRun) as Hc1.
  destruct (GetSummary_Run kc host w1) as (r2 & w2 & E2 & HRun2).
  pose proof (Run_clients _ _ _ _ _ HRun2) as Hc2.
  split; [|split].
  - eapply same_answer_same_result; [eassumption| now rewrite Hc1 | exact Hnet].
  - exact Hc1.
  - rewrite E2. simpl. congruence.
Qed.

(** C10: the body is read before the status is looked at: when the
    transport answers with status 404 and reading the body fails,
    [GetSummary] returns the error made for the failed read, whose text
    holds the text of the read error; it is not the [*ErrNotFound], and
    [IsNotFoundError] is false of it. *)
Theorem GetSummary_read_error_before_status (kc : nat) (cfg : kubeletClient)
    (host : string) (w : World) (req : Request) (raw : RawResponse) (n : Network)
    (data : string) (e : error_value) (rest : list read_event) :
  clients w !! kc = Some cfg ->
  http_NewRequest "GET" (URL_String (GetSummary_url cfg host)) = inl req ->
  http_Client_Do (GetSummary_client cfg) req (network w) = (inl raw, n) ->
  raw_StatusCode raw = 404 ->
  read_all (raw_Body raw) EmptyString = (data, Some e, rest) ->
  fst (GetSummary kc host w) =
    Val (Some Summary_zero,
         Some (errorString ("failed to read response body - " +:+ verb_v e))) /\
  fails_with_texts (fst (GetSummary kc host w)) [verb_v e] /\
  (forall res p, fst (GetSummary kc host w) <> Val (res, Some (ErrNotFound_ptr p))).
Proof.
  intros Hkc Hreq Hdo Hcode Hread.
  erewrite run_read_error by eassumption. simpl.
  split; [reflexivity|]. split.
  - do 2 eexists. split; [reflexivity|]. split; [reflexivity|].
    constructor; [simpl; auto with occurs | constructor].
  - intros res p H. discriminate.
Qed.

End Claims.

(** ** The client against the test double *)

Lemma GetSummary_not_found_witness :
  exists res err,
    fst (Double.fetch
           (Double.answers "404 Not Found" 404 [Chunk "404 page not found"]) "node1")
      = Val (res, err) /\
    err = Some (ErrNotFound_ptr
                  (Some {| endpoint := "https://node1:10250/stats/summary/" |})) /\
    IsNotFoundError err = true.
Proof.
  eapply (GetSummary_not_found 0 _ "node1"
            (Double.installed
               (Double.answers "404 Not Found" 404 [Chunk "404 page not found"]))
            _ Double.node1_url);
    reflexivity.
Defined.

(** A 404 comes back with the error and with the pointer to a summary. *)
Lemma GetSummary_returns_both :
  ~ one_result_or_one_error
      (fst (Double.fetch
              (Double.answers "404 Not Found" 404 [Chunk "404 page not found"])
              "node1")).
Proof.
  intros H.
  destruct (H (Some Double.stats.Summary_zero)
              (Some (ErrNotFound_ptr
                       (Some {| endpoint := "https://node1:10250/stats/summary/" |})))
              eq_refl) as [Hnil _].
  discriminate Hnil. discriminate.
Qed.

Lemma GetSummary_decoded_witness :
  fst (Double.fetch (Double.answers "200 OK" 200 [Chunk Double.body_n1]) "node1")
  = Val (Some {| Double.stats.Node := {| Double.stats.NodeName := "n1" |};
                 Double.stats.Pods := [] |},
         None).
Proof.
  eapply (GetSummary_decoded 0 _ "node1"
            (Double.installed (Double.answers "200 OK" 200 [Chunk Double.body_n1])));
    reflexivity.
Defined.

Lemma GetSummary_decode_error_witness :
  fails_with_texts
    (fst (Double.fetch (Double.answers "200 OK" 200 [Chunk "not json"]) "node1"))
    [Double.quoted "not json"; "invalid JSON text"] /\
  fails_with_texts
    (fst (Double.fetch (Double.answers "200 OK" 200 [Chunk "not json"]) "node1"))
    ["not json"; "invalid JSON text"].
Proof.
  edestruct GetSummary_decode_error
    with (kc := 0%nat) (host := "node1")
         (w := Double.installed (Double.answers "200 OK" 200 [Chunk "not json"]))
    as (_ & Hquoted & Hraw);
    [reflexivity | reflexivity | reflexivity | reflexivity | reflexivity
    | reflexivity |].
  split; [exact Hquoted|].
  apply Hraw. apply contains_occurs. reflexivity.
Defined.

(** A body that ends in a line feed is in the text of the decode error only
    with the line feed escaped. *)
Lemma GetSummary_decode_error_escapes_body :
  ~ fails_with_texts
      (fst (Double.fetch
              (Double.answers "200 OK" 200 [Chunk (Double.line "not json")]) "node1"))
      [Double.line "not json"; "invalid JSON text"].
Proof.
  intros (res & e & Hout & _ & Htexts).
  vm_compute in Hout. inversion Hout; subst res e.
  inversion Htexts as [|? ? Hbody _]. revert Hbody.
  apply not_contains_not_occurs. reflexivity.
Qed.

Lemma GetSummary_status_error_witness :
  fails_with_texts
    (fst (Double.fetch
            (Double.answers "500 Internal Server Error" 500 [Chunk "internal error"])
            "node1"))
    [Double.quoted "500 Internal Server Error"; Double.quoted "internal error"] /\
  fails_with_texts
    (fst (Double.fetch
            (Double.answers "500 Internal Server Error" 500 [Chunk "internal error"])
            "node1"))
    ["500 Internal Server Error"; "internal error"].
Proof.
  edestruct GetSummary_status_error
    with (kc := 0%nat) (host := "node1")
         (w := Double.installed
                 (Double.answers "500 Internal Server Error" 500
                    [Chunk "internal error"]))
    as (_ & Hquoted & Hraw);
    [reflexivity | reflexivity | reflexivity | discriminate | discriminate
    | reflexivity |].
  split; [exact Hquoted|].
  apply Hraw; apply contains_occurs; reflexivity.
Defined.

(** A body that ends in a line feed is in the text of the status error only
    with the line feed escaped. *)
Lemma GetSummary_status_error_escapes_body :
  ~ fails_with_texts
      (fst (Double.fetch
              (Double.answers "500 Internal Server Error" 500
                 [Chunk (Double.line "internal error")])
              "node1"))
      ["500 Internal Server Error"; Double.line "internal error"].
Proof.
  intros (res & e & Hout & _ & Htexts).
  vm_compute in Hout. inversion Hout; subst res e.
  inversion Htexts as [|? ? _ Hrest]. inversion Hrest as [|? ? Hbody _].
  revert Hbody. apply not_contains_not_occurs. reflexivity.
Qed.

Lemma GetSummary_releases_body_witness :
  conns (snd (Double.fetch
                (Double.answers "500 Internal Server Error" 500
                   [Chunk "internal "; Chunk "error"])
                "node1"))
  = [{| stream := []; closed := true |}] /\
  conns (snd (Double.fetch
                (Double.answers "500 Internal Server Error" 500
                   [Chunk "internal "; Chunk "error"])
                "node1")) !! 0%nat
  = Some {| stream := []; closed := true |}.
Proof.
  edestruct GetSummary_releases_body
    with (kc := 0%nat) (host := "node1")
         (w := Double.installed
                 (Double.answers "500 Internal Server Error" 500
                    [Chunk "internal "; Chunk "error"]))
    as (Hconns & Hdrained);
    [reflexivity | reflexivity | reflexivity | reflexivity |].
  split; [exact Hconns | exact (Hdrained eq_refl)].
Defined.

Lemma GetSummary_stateless_witness :
  let w := Double.installed (Double.answers "200 OK" 200 [Chunk Double.body_n1]) in
  let first := GetSummary 0 "node1" w in
  let second := GetSummary 0 "node1" (snd first) in
  fst second = fst first /\
  clients (snd first) = clients w /\
  clients (snd second) = clients w.
Proof.
  intros w.
  apply (GetSummary_stateless 0 "node1" w).
  intros cfg req _ _. reflexivity.
Defined.

Lemma GetSummary_read_error_before_status_witness :
  fails_with_texts
    (fst (Double.fetch (Double.answers "404 Not Found" 404 Double.broken_body) "node1"))
    ["unexpected EOF"].
Proof.
  edestruct GetSummary_read_error_before_status
    with (kc := 0%nat) (host := "node1")
         (w := Double.installed (Double.answers "404 Not Found" 404 Double.broken_body))
    as (_ & Htext & _);
    [reflexivity | reflexivity | reflexivity | reflexivity | reflexivity |].
  exact Htext.
Defined.

(** ** The rest of the client

    What the constructor, the error text, the transport-error and
    bad-request paths, the log line and the URL give beyond the above. *)

Section Further.

Context {rt : Runtime}.

(** X1: [NewKubeletClient] cannot fail and does no I/O: it returns a nil
    error and a reference that was not in use, to a client holding the
    port, the scheme flag and an [http.Client] with the given transport; every
    client object that was there stays as it was, and so do the network, the
    response bodies and the log. *)
Theorem NewKubeletClient_fresh (transport : option RoundTripper) (p : N)
    (insecure : bool) (w : World) :
  exists kc w1,
    NewKubeletClient transport p insecure w = (Val (kc, None), w1) /\
    clients w !! kc = None /\
    clients w1 !! kc =
      Some {| portIsInsecure := insecure; port := p;
              client := Some {| Transport := transport |} |} /\
    (forall k cfg, clients w !! k = Some cfg -> clients w1 !! k = Some cfg) /\
    network w1 = network w /\ conns w1 = conns w /\
    glog_v w1 = glog_v w /\ glog_out w1 = glog_out w.
Proof.
  do 2 eexists. split; [reflexivity|]. simpl.
  split; [apply lookup_ge_None_2; lia|].
  split; [apply lookup_last|].
  split; [|repeat split].
  intros k cfg Hk. rewrite lookup_app_l; [exact Hk|].
  eapply lookup_lt_Some; eassumption.
Qed.

(** On a client made by [NewKubeletClient], a call whose request is built
    with its URL returns, and leaves the network as [Client.Do] on a client
    with the transport of the constructor left it. *)
Lemma NewKubeletClient_then_Do (transport : option RoundTripper)
    (p : N) (insecure : bool) (host : string) (w : World) (req : Request) :
  let cfg := {| portIsInsecure := insecure; port := p;
                client := Some {| Transport := transport |} |} in
  http_NewRequest "GET" (URL_String (GetSummary_url cfg host)) = inl req ->
  ReqURL req <> None ->
  exists kc w1 res err w2,
    NewKubeletClient transport p insecure w = (Val (kc, None), w1) /\
    GetSummary kc host w1 = (Val (res, err), w2) /\
    network w2
    = snd (http_Client_Do {| Transport := transport |} req (network w)).
Proof.
  intros cfg Hreq Hurl.
  exists (length (clients w)), (set_clients (clients w ++ [cfg]) w).
  destruct (GetSummary_Run (length (clients w)) host
              (set_clients (clients w ++ [cfg]) w)) as (r & w2 & E & HRun).
  rewrite E.
  destruct HRun;
    match goal with
    | H : clients _ !! _ = _ |- _ =>
        cbn [clients set_clients] in H; rewrite lookup_last in H;
        try discriminate H; injection H as <-
    end;
    try match goal with
    | H : http_NewRequest _ _ = _ |- _ =>
        rewrite Hreq in H; try discriminate H; injection H as <-
    end;
    try contradiction;
    match goal with
    | H : http_Client_Do _ _ _ = _ |- _ =>
        unfold cfg in H;
        cbn [GetSummary_client client network set_clients] in H;
        do 3 eexists; (split; [reflexivity|]); (split; [reflexivity|]);
        cbn [network set_network after_response]; now rewrite H
    end.
Qed.

(** X3: making another client leaves the clients there are as they were:
    what [GetSummary] returns on a client, and the round trip it makes, are
    the same after [NewKubeletClient] as before it. *)
Theorem NewKubeletClient_keeps_clients (transport : option RoundTripper) (p : N)
    (insecure : bool) (kc : nat) (cfg : kubeletClient) (host : string) (w : World) :
  clients w !! kc = Some cfg ->
  let w1 := snd (NewKubeletClient transport p insecure w) in
  fst (GetSummary kc host w1) = fst (GetSummary kc host w) /\
  network (snd (GetSummary kc host w1)) = network (snd (GetSummary kc host w)).
Proof.
  intros Hkc w1. subst w1. cbn [NewKubeletClient snd].
  assert (Hkc1 : clients (set_clients
                            (clients w ++
                             [{| portIsInsecure := insecure; port := p;
                                 client := Some {| Transport := transport |} |}]) w)
                 !! kc = Some cfg).
  { cbn [clients set_clients]. rewrite lookup_app_l; [exact Hkc|].
    eapply lookup_lt_Some; eassumption. }
  destruct (GetSummary_Run kc host w) as (r & w' & E & HRun). rewrite E.
  destruct HRun;
    match goal with
    | H : clients w !! kc = _ |- _ =>
        rewrite Hkc in H; try discriminate H; injection H as <-
    end.
  - now erewrite run_bad_request by eassumption.
  - now erewrite run_transport_error by eassumption.
  - now erewrite run_read_error by eassumption.
  - now erewrite run_not_found by eassumption.
  - now erewrite run_not_found_nil_URL by eassumption.
  - now erewrite run_status by eassumption.
  - now erewrite run_decoded by eassumption.
  - now erewrite run_decode_error by eassumption.
Qed.

(** X4: an error of the transport comes back as it is, not wrapped, with
    the pointer to the zero summary; no response body was opened, nothing
    was logged, and the network is as the failed round trip left it. *)
Theorem GetSummary_transport_error (kc : nat) (cfg : kubeletClient)
    (host : string) (w : World) (req : Request) (e : error_value) (n : Network) :
  clients w !! kc = Some cfg ->
  http_NewRequest "GET" (URL_String (GetSummary_url cfg host)) = inl req ->
  http_Client_Do (GetSummary_client cfg) req (network w) = (inr e, n) ->
  exists w',
    GetSummary kc host w = (Val (Some Summary_zero, Some e), w') /\
    network w' = n /\ conns w' = conns w /\
    glog_out w' = glog_out w /\ clients w' = clients w.
Proof.
  intros Hkc Hreq Hdo. eexists. split; [eapply run_transport_error; eassumption|].
  repeat split.
Qed.

(** On a nil receiver, or when the request cannot be built, a call leaves
    the whole process as it was; in every other case it leaves the network
    as [Client.Do] of the request that was built left it. *)
Lemma GetSummary_network (kc : nat) (host : string) (w : World) :
  let w' := snd (GetSummary kc host w) in
  (w' = w /\
   (clients w !! kc = None \/
    exists cfg e,
      clients w !! kc = Some cfg /\
      http_NewRequest "GET" (URL_String (GetSummary_url cfg host)) = inr e)) \/
  (exists cfg req,
     clients w !! kc = Some cfg /\
     http_NewRequest "GET" (URL_String (GetSummary_url cfg host)) = inl req /\
     network w'
     = snd (http_Client_Do (GetSummary_client cfg) req (network w))).
Proof.
  destruct (GetSummary_Run kc host w) as (r & w' & E & HRun).
  rewrite E. cbn [snd].
  destruct HRun; [left; eauto 6 | left; eauto 6 | right ..];
    do 2 eexists; (split; [eassumption|]); (split; [eassumption|]);
    match goal with
    | H : http_Client_Do _ _ _ = _ |- _ => now rewrite H
    end.
Qed.

(** X6: a call never leaves a response body open and never touches the
    bodies of earlier calls: the connections after it are those before it,
    with at most one more, which is closed. *)
Theorem GetSummary_leaves_no_body_open (kc : nat) (host : string) (w : World) :
  let w' := snd (GetSummary kc host w) in
  (conns w' = conns w \/
   exists rest, conns w' = conns w ++ [{| stream := rest; closed := true |}]) /\
  (all_closed (conns w) -> all_closed (conns w')).
Proof.
  destruct (GetSummary_Run kc host w) as (r & w' & E & HRun).
  rewrite E. cbn [snd].
  assert (Hshape : conns w' = conns w \/
            exists rest, conns w' = conns w ++ [{| stream := rest; closed := true |}]).
  { destruct HRun; cbn [conns set_network after_response]; eauto. }
  split; [exact Hshape|].
  intros Hall. destruct Hshape as [-> | [rest ->]]; [exact Hall|].
  apply Forall_app; split; [exact Hall|]. now constructor.
Qed.

(** X7: a call never changes the verbosity, and it writes to the log only
    when the verbosity is 10 or more and a response with status 200 was read
    to its end; what it writes then is one line, the raw-response line. *)
Theorem GetSummary_log (kc : nat) (host : string) (w : World) :
  let w' := snd (GetSummary kc host w) in
  glog_v w' = glog_v w /\
  (glog_v w < 10 -> glog_out w' = glog_out w) /\
  (glog_out w' = glog_out w \/
   10 <= glog_v w /\
   exists cfg req raw n body,
     clients w !! kc = Some cfg /\
     http_NewRequest "GET" (URL_String (GetSummary_url cfg host)) = inl req /\
     http_Client_Do (GetSummary_client cfg) req (network w) = (inl raw, n) /\
     read_all (raw_Body raw) EmptyString = (body, None, []) /\
     raw_StatusCode raw = 200 /\
     glog_out w' = glog_out w ++ [raw_response_line req body]).
Proof.
  destruct (GetSummary_Run kc host w) as (r & w' & E & HRun).
  rewrite E. cbn [snd].
  destruct HRun;
    cbn [glog_v glog_out set_network after_response]; unfold logged;
    (split; [reflexivity|]);
    try (split; [reflexivity | left; reflexivity]);
    (destruct (10 <=? glog_v w) eqn:Hv;
       [apply Z.leb_le in Hv | apply Z.leb_gt in Hv]);
    (split; [intros; (reflexivity || lia)|]);
    (reflexivity || (left; reflexivity) || (right; split; [exact Hv|]; eauto 12)).
Qed.

(** X8: at verbosity 10 or more the body of a 200 response that was read
    to its end is in the log after the call as it was received, unquoted,
    behind the address of the Kubelet, on the way out with the decoded
    summary and on the way out with a decode error alike. *)
Theorem GetSummary_logs_raw_body (kc : nat) (cfg : kubeletClient)
    (host : string) (w : World) (req : Request) (u : URL) (raw : RawResponse)
    (n : Network) (body : string) :
  clients w !! kc = Some cfg ->
  http_NewRequest "GET" (URL_String (GetSummary_url cfg host)) = inl req ->
  ReqURL req = Some u ->
  http_Client_Do (GetSummary_client cfg) req (network w) = (inl raw, n) ->
  raw_StatusCode raw = 200 ->
  read_all (raw_Body raw) EmptyString = (body, None, []) ->
  10 <= glog_v w ->
  glog_out (snd (GetSummary kc host w))
  = glog_out w ++ ["Raw response from Kubelet at " +:+ Host u +:+ ": " +:+ body].
Proof.
  intros Hkc Hreq Hurl Hdo Hcode Hread Hv. apply Z.leb_le in Hv.
  destruct (json_Unmarshal body Summary_zero) as [s [e|]] eqn:Hjson.
  - erewrite run_decode_error by eassumption.
    cbn [snd glog_out after_response]. unfold logged, raw_response_line.
    now rewrite Hv, Hurl.
  - erewrite run_decoded by eassumption.
    cbn [snd glog_out after_response]. unfold logged, raw_response_line.
    now rewrite Hv, Hurl.
Qed.

(** X9: the text of the error returned for a 404, as [Error] of
    [*ErrNotFound] gives it, is the string of the request's URL as [%q]
    writes it, followed by [ not found]. *)
Theorem GetSummary_not_found_text (kc : nat) (cfg : kubeletClient)
    (host : string) (w : World) (req : Request) (u : URL) (raw : RawResponse)
    (n : Network) (body : string) :
  clients w !! kc = Some cfg ->
  http_NewRequest "GET" (URL_String (GetSummary_url cfg host)) = inl req ->
  ReqURL req = Some u ->
  http_Client_Do (GetSummary_client cfg) req (network w) = (inl raw, n) ->
  raw_StatusCode raw = 404 ->
  read_all (raw_Body raw) EmptyString = (body, None, []) ->
  exists res x,
    fst (GetSummary kc host w) = Val (res, Some (ErrNotFound_ptr (Some x))) /\
    ErrNotFound_Error x = strconv_Quote (URL_String u) +:+ " not found" /\
    verb_v (ErrNotFound_ptr (Some x)) = ErrNotFound_Error x /\
    occurs_in (strconv_Quote (URL_String u)) (ErrNotFound_Error x).
Proof.
  intros Hkc Hreq Hurl Hdo Hcode Hread.
  erewrite run_not_found by eassumption. cbn [fst].
  do 2 eexists. split; [reflexivity|].
  unfold ErrNotFound_Error. cbn [endpoint verb_v].
  repeat split. apply occurs_in_here.
Qed.

(** X10: once a response was obtained, the error returned is a not-found
    error only if the status was 404 and the body was read to its end: a
    failed read, another status and a decode error never look like a missing
    endpoint. *)
Theorem GetSummary_not_found_only_on_404 (kc : nat) (cfg : kubeletClient)
    (host : string) (w : World) (req : Request) (raw : RawResponse) (n : Network)
    (res : option Summary) (err : error) :
  clients w !! kc = Some cfg ->
  http_NewRequest "GET" (URL_String (GetSummary_url cfg host)) = inl req ->
  http_Client_Do (GetSummary_client cfg) req (network w) = (inl raw, n) ->
  fst (GetSummary kc host w) = Val (res, err) ->
  IsNotFoundError err = true ->
  raw_StatusCode raw = 404 /\
  exists body u,
    read_all (raw_Body raw) EmptyString = (body, None, []) /\
    ReqURL req = Some u /\
    err = Some (ErrNotFound_ptr (Some {| endpoint := URL_String u |})).
Proof.
  intros Hkc Hreq Hdo Hout Hnf.
  destruct (read_all (raw_Body raw) EmptyString) as [[body [e|]] rest] eqn:Hread.
  { erewrite run_read_error in Hout by eassumption.
    injection Hout as <- <-. discriminate Hnf. }
  assert (rest = []) as -> by eauto using read_all_eof.
  destruct (Z.eq_dec (raw_StatusCode raw) http_StatusNotFound) as [H404|H404].
  { split; [exact H404|].
    destruct (ReqURL req) as [u|] eqn:Hurl.
    - erewrite run_not_found in Hout by eassumption.
      injection Hout as <- <-. eauto.
    - erewrite run_not_found_nil_URL in Hout by eassumption. discriminate Hout. }
  exfalso.
  destruct (Z.eq_dec (raw_StatusCode raw) http_StatusOK) as [H200|H200].
  - destruct (json_Unmarshal body Summary_zero) as [s [e|]] eqn:Hjson.
    + erewrite run_decode_error in Hout by eassumption.
      injection Hout as <- <-. discriminate Hnf.
    + erewrite run_decoded in Hout by eassumption.
      injection Hout as <- <-. discriminate Hnf.
  - erewrite run_status in Hout by eassumption.
    injection Hout as <- <-. discriminate Hnf.
Qed.

(** X11: logging is only observed in the log: with any other verbosity
    and any other log written so far, a call returns the same, makes the
    same round trip and leaves the same response bodies and clients. *)
Theorem GetSummary_ignores_glog (kc : nat) (host : string) (w : World)
    (v : Z) (out : list string) :
  let a := GetSummary kc host w in
  let b := GetSummary kc host (with_glog v out w) in
  fst b = fst a /\
  network (snd b) = network (snd a) /\
  conns (snd b) = conns (snd a) /\
  clients (snd b) = clients (snd a).
Proof.
  destruct (GetSummary_Run kc host w) as (r & w' & E & HRun).
  cbn zeta. rewrite E.
  destruct HRun.
  - erewrite (run_nil_receiver kc host (with_glog v out w)) by eassumption.
    now repeat split.
  - erewrite (run_bad_request kc _ host (with_glog v out w)) by eassumption.
    now repeat split.
  - erewrite (run_transport_error kc _ host (with_glog v out w)) by eassumption.
    now repeat split.
  - erewrite (run_read_error kc _ host (with_glog v out w)) by eassumption.
    now repeat split.
  - erewrite (run_not_found kc _ host (with_glog v out w)) by eassumption.
    now repeat split.
  - erewrite (run_not_found_nil_URL kc _ host (with_glog v out w)) by eassumption.
    now repeat split.
  - erewrite (run_status kc _ host (with_glog v out w)) by eassumption.
    now repeat split.
  - erewrite (run_decoded kc _ host (with_glog v out w)) by eassumption.
    now repeat split.
  - erewrite (run_decode_error kc _ host (with_glog v out w)) by eassumption.
    now repeat split.
Qed.

Lemma digits_no_colon (d : Decimal.uint) :
  has_colon (DecimalString.NilEmpty.string_of_uint d) = false.
Proof. induction d; simpl; auto. Qed.

Lemma verb_d_no_colon (n : N) : has_colon (verb_d n) = false.
Proof.
  unfold verb_d, DecimalString.NilZero.string_of_uint.
  destruct (N.to_uint n); try apply digits_no_colon. reflexivity.
Qed.

Lemma to_uint_nonnil (n : N) : N.to_uint n <> Decimal.Nil.
Proof.
  destruct n as [|p]; [discriminate|]. apply DecimalPos.Unsigned.to_uint_nonnil.
Qed.

Lemma verb_d_inj (n m : N) : verb_d n = verb_d m -> n = m.
Proof.
  unfold verb_d. intros H.
  apply DecimalN.Unsigned.to_uint_inj.
  pose proof (DecimalString.NilZero.usu _ (to_uint_nonnil n)) as Hn.
  pose proof (DecimalString.NilZero.usu _ (to_uint_nonnil m)) as Hm.
  rewrite H in Hn. congruence.
Qed.

Lemma has_colon_app (a b : string) : has_colon (a +:+ String ":" b) = true.
Proof.
  induction a as [|c a IH]; [reflexivity|].
  rewrite append_cons. simpl. rewrite IH. apply orb_true_r.
Qed.

(** Text that ends in a colon and a part without colon splits in one way. *)
Lemma split_at_last_colon (h1 h2 d1 d2 : string) :
  has_colon d1 = false -> has_colon d2 = false ->
  h1 +:+ ":" +:+ d1 = h2 +:+ ":" +:+ d2 ->
  h1 = h2 /\ d1 = d2.
Proof.
  intros H1 H2. revert h2.
  induction h1 as [|c h1 IH]; intros [|c2 h2] E.
  - rewrite !append_nil_l, !append_cons, !append_nil_l in E.
    injection E as E. now split.
  - rewrite !append_nil_l, !append_cons, !append_nil_l in E.
    injection E as _ E. rewrite E, has_colon_app in H1. discriminate.
  - rewrite !append_nil_l, !append_cons, !append_nil_l in E.
    injection E as _ E. rewrite <- E, has_colon_app in H2. discriminate.
  - rewrite !append_cons in E. injection E as -> E.
    destruct (IH _ E) as [-> ->]. now split.
Qed.

(** X12: the host component of the URL tells the host and the port apart:
    two calls build the same host component only for the same host and the
    same port, so no two targets share an endpoint. *)
Theorem GetSummary_url_Host_inj (cfg1 cfg2 : kubeletClient) (h1 h2 : string) :
  Host (GetSummary_url cfg1 h1) = Host (GetSummary_url cfg2 h2) <->
  h1 = h2 /\ port cfg1 = port cfg2.
Proof.
  assert (HHost : forall cfg h,
            Host (GetSummary_url cfg h) = h +:+ ":" +:+ verb_d (port cfg)).
  { intros cfg h. unfold GetSummary_url. now destruct (portIsInsecure cfg). }
  rewrite !HHost. split.
  - intros E.
    apply split_at_last_colon in E; try apply verb_d_no_colon.
    destruct E as [-> E]. split; [reflexivity|]. now apply verb_d_inj.
  - now intros [-> ->].
Qed.

(** X13: [postRequestAndGetValue] decodes into the value it is given and
    touches it nowhere else.  With whatever value and on whatever receiver,
    a nil error means that the value is what [json.Unmarshal] made of it
    from the whole body of a 200 response; with an error the value is as it
    was given, unless the error is that of the decoding; and the only panic
    is that of a 404 on a request without URL. *)
Theorem postRequestAndGetValue_value (kc : nat) (c : http_Client RoundTripper)
    (req : Request) (value : Summary) (w : World) :
  match fst (postRequestAndGetValue kc c req value w) with
  | Val (v, None) =>
      exists raw n body,
        http_Client_Do c req (network w) = (inl raw, n) /\
        read_all (raw_Body raw) EmptyString = (body, None, []) /\
        raw_StatusCode raw = 200 /\
        json_Unmarshal body value = (v, None)
  | Val (v, Some e) =>
      v = value \/
      exists raw n body e',
        http_Client_Do c req (network w) = (inl raw, n) /\
        read_all (raw_Body raw) EmptyString = (body, None, []) /\
        raw_StatusCode raw = 200 /\
        json_Unmarshal body value = (v, Some e') /\
        e = errorString
              ("failed to parse output. Response: " +:+ strconv_Quote body
               +:+ ". Error: " +:+ verb_v e')
  | Panic _ =>
      ReqURL req = None /\
      exists raw n,
        http_Client_Do c req (network w) = (inl raw, n) /\
        raw_StatusCode raw = 404
  end.
Proof.
  unfold postRequestAndGetValue, bind, defer, client_Do.
  destruct (http_Client_Do c req (network w)) as [[raw|e] n] eqn:Hdo;
    [|left; reflexivity].
  unfold ioutil_ReadAll.
  cbn [conns set_conns set_network Body_ref StatusCode Status].
  rewrite lookup_last. cbn [closed stream].
  destruct (read_all (raw_Body raw) EmptyString) as [[body [e|]] rest] eqn:Hread;
    [left; reflexivity|].
  assert (rest = []) as -> by eauto using read_all_eof.
  destruct (raw_StatusCode raw =? http_StatusNotFound) eqn:H404.
  { apply Z.eqb_eq in H404.
    destruct (ReqURL req) as [u|] eqn:Hurl; cbn; [left; reflexivity | eauto]. }
  destruct (raw_StatusCode raw =? http_StatusOK) eqn:H200;
    [|left; reflexivity].
  apply Z.eqb_eq in H200. cbn [negb].
  unfold glog_V_Infof. cbn [glog_v set_conns set_network].
  destruct (10 <=? glog_v w);
    destruct (json_Unmarshal body value) as [v [e|]] eqn:Hjson; cbn;
    eauto 12.
Qed.

End Further.

(** ** The calls of [Client.Do] *)

(** X2: a client made by [NewKubeletClient] is ready for [GetSummary]: when
    [http.NewRequest] builds the request, with its URL, the call returns
    without a panic, and it has called [Client.Do] once: on an
    [http.Client] whose transport is the one given to the constructor, with
    that request. *)
Theorem NewKubeletClient_then_GetSummary (base : Runtime)
    (transport : option (@RoundTripper base)) (p : N) (insecure : bool)
    (host : string) (w : @World (recording base)) (req : Request) :
  let cfg := @Build_kubeletClient (recording base) insecure p
               (Some {| Transport := transport |}) in
  @http_NewRequest (recording base) "GET"
    (@URL_String (recording base) (GetSummary_url cfg host)) = inl req ->
  ReqURL req <> None ->
  exists kc w1 res err w2,
    @NewKubeletClient (recording base) transport p insecure w
    = (Val (kc, None), w1) /\
    GetSummary kc host w1 = (Val (res, err), w2) /\
    snd (network w2) = snd (network w) ++ [({| Transport := transport |}, req)].
Proof.
  intros cfg Hreq Hurl.
  destruct (NewKubeletClient_then_Do (rt := recording base)
              transport p insecure host w req Hreq Hurl)
    as (kc & w1 & res & err & w2 & Hnew & Hrun & Hnet).
  exists kc, w1, res, err, w2. split; [exact Hnew|]. split; [exact Hrun|].
  rewrite Hnet. cbn [http_Client_Do recording].
  match goal with
  | |- context [let '(_, _) := ?d in _] => now destruct d
  end.
Qed.

(** X5: a call of [GetSummary] calls [Client.Do] at most once.  On a nil
    receiver, or when the request cannot be built, it does not call it and
    leaves the whole process as it was; in every other case it calls it
    once, on [kc.client] or the default client, with the request built from
    the URL. *)
Theorem GetSummary_calls_Do_once (base : Runtime) (kc : nat) (host : string)
    (w : @World (recording base)) :
  let w' := snd (GetSummary kc host w) in
  (w' = w /\
   (clients w !! kc = None \/
    exists (cfg : @kubeletClient (recording base)) (e : error_value),
      clients w !! kc = Some cfg /\
      @http_NewRequest (recording base) "GET"
        (@URL_String (recording base) (GetSummary_url cfg host)) = inr e)) \/
  (exists (cfg : @kubeletClient (recording base)) (req : Request),
     clients w !! kc = Some cfg /\
     @http_NewRequest (recording base) "GET"
       (@URL_String (recording base) (GetSummary_url cfg host)) = inl req /\
     snd (network w') = snd (network w) ++ [(GetSummary_client cfg, req)]).
Proof.
  intros w'. subst w'.
  destruct (GetSummary_network (rt := recording base) kc host w)
    as [Hsame | (cfg & req & Hkc & Hreq & Hnet)]; [left; exact Hsame|].
  right. exists cfg, req. split; [exact Hkc|]. split; [exact Hreq|].
  rewrite Hnet. cbn [http_Client_Do recording].
  match goal with
  | |- context [let '(_, _) := ?d in _] => now destruct d
  end.
Qed.

(** ** The rest of the client against the test double *)

Lemma GetSummary_url_shape_witness :
  exists u : URL,
    Scheme u = "https" /\ Host u = "node1:10250" /\
    Path u = "/stats/summary/" /\ RawQuery u = EmptyString /\
    Double.url_String u = "https://node1:10250/stats/summary/" /\
    fst (Double.fetch (Double.answers "200 OK" 200 [Chunk Double.body_n1]) "node1")
    = Val (Some {| Double.stats.Node := {| Double.stats.NodeName := "n1" |};
                   Double.stats.Pods := [] |},
           None).
Proof.
  edestruct GetSummary_url_shape
    with (kc := 0%nat) (host := "node1")
         (w := Double.installed
                 (Double.answers "200 OK" 200 [Chunk Double.body_n1]))
    as (u & _ & Hhttps & HHost & HPath & HQuery & _ & _ & _ & _ & _ & Hrun);
    [reflexivity|].
  assert (HScheme : Scheme u = "https") by (apply Hhttps; reflexivity).
  assert (Hstring : Double.url_String u = "https://node1:10250/stats/summary/").
  { unfold Double.url_String. rewrite HScheme, HHost, HPath. reflexivity. }
  exists u.
  do 4 (split; [assumption|]). split; [exact Hstring|].
  change (@URL_String Double.runtime u) with (Double.url_String u) in Hrun.
  rewrite Hstring in Hrun.
  change (Double.fetch (Double.answers "200 OK" 200 [Chunk Double.body_n1]) "node1")
    with (GetSummary 0 "node1"
            (Double.installed (Double.answers "200 OK" 200 [Chunk Double.body_n1]))).
  rewrite Hrun. reflexivity.
Defined.

Lemma NewKubeletClient_then_GetSummary_witness :
  exists kc w1 res err w2,
    @NewKubeletClient (recording Double.runtime)
      (Double.answers "200 OK" 200 [Chunk Double.body_n1])
      10250 false recorded_start
    = (Val (kc, None), w1) /\
    GetSummary kc "node1" w1 = (Val (res, err), w2) /\
    snd (network w2)
    = [({| Transport := Double.answers "200 OK" 200 [Chunk Double.body_n1] |},
        {| Method := "GET"; ReqURL := Some Double.node1_url |})].
Proof.
  refine (NewKubeletClient_then_GetSummary Double.runtime
            (Double.answers "200 OK" 200 [Chunk Double.body_n1])
            10250 false "node1" recorded_start
            {| Method := "GET"; ReqURL := Some Double.node1_url |} _ _);
    [reflexivity | discriminate].
Defined.


Lemma NewKubeletClient_keeps_clients_witness :
  let w := Double.installed (Double.answers "200 OK" 200 [Chunk Double.body_n1]) in
  let w1 := snd (NewKubeletClient None 10255 true w) in
  fst (GetSummary 0 "node1" w1) = fst (GetSummary 0 "node1" w) /\
  network (snd (GetSummary 0 "node1" w1)) = network (snd (GetSummary 0 "node1" w)).
Proof.
  intros w.
  eapply (NewKubeletClient_keeps_clients None 10255 true 0 _ "node1" w).
  reflexivity.
Defined.

Lemma GetSummary_transport_error_witness :
  exists w',
    GetSummary 0 "node1"
      (Double.installed (Some (inr (errorString "connection refused"))))
    = (Val (Some Double.stats.Summary_zero, Some (errorString "connection refused")),
       w') /\
    network w' = 1%nat /\ conns w' = [] /\ glog_out w' = [] /\
    clients w'
    = clients (Double.installed (Some (inr (errorString "connection refused")))).
Proof.
  eapply (GetSummary_transport_error 0 _ "node1"
            (Double.installed (Some (inr (errorString "connection refused")))));
    reflexivity.
Defined.

Lemma GetSummary_logs_raw_body_witness :
  glog_out
    (snd (GetSummary 0 "node1"
            (with_glog 10 []
               (Double.installed (Double.answers "200 OK" 200 [Chunk "not json"])))))
  = ["Raw response from Kubelet at node1:10250: not json"].
Proof.
  eapply (GetSummary_logs_raw_body 0 _ "node1"
            (with_glog 10 []
               (Double.installed (Double.answers "200 OK" 200 [Chunk "not json"])))
            _ Double.node1_url);
    reflexivity.
Defined.

Lemma GetSummary_not_found_text_witness :
  exists res x,
    fst (Double.fetch
           (Double.answers "404 Not Found" 404 [Chunk "404 page not found"]) "node1")
    = Val (res, Some (ErrNotFound_ptr (Some x))) /\
    ErrNotFound_Error x
    = Double.quoted "https://node1:10250/stats/summary/" +:+ " not found" /\
    verb_v (ErrNotFound_ptr (Some x)) = ErrNotFound_Error x /\
    occurs_in (Double.quoted "https://node1:10250/stats/summary/")
      (ErrNotFound_Error x).
Proof.
  eapply (GetSummary_not_found_text 0 _ "node1"
            (Double.installed
               (Double.answers "404 Not Found" 404 [Chunk "404 page not found"]))
            _ Double.node1_url);
    reflexivity.
Defined.

Lemma GetSummary_not_found_only_on_404_witness :
  404 = 404 /\
  exists body u,
    read_all [Chunk "404 page not found"] EmptyString = (body, None, []) /\
    Some Double.node1_url = Some u /\
    Some (ErrNotFound_ptr
            (Some {| endpoint := "https://node1:10250/stats/summary/" |}))
    = Some (ErrNotFound_ptr (Some {| endpoint := Double.url_String u |})).
Proof.
  eapply (GetSummary_not_found_only_on_404 0 _ "node1"
            (Double.installed
               (Double.answers "404 Not Found" 404 [Chunk "404 page not found"]))
            {| Method := "GET"; ReqURL := Some Double.node1_url |}
            {| raw_Status := "404 Not Found"; raw_StatusCode := 404;
               raw_Body := [Chunk "404 page not found"] |});
    reflexivity.
Defined.
